(** * Conflict early-warning system: risk scoring, text normalisation,
      classifier life cycle and monthly report

    A shallow embedding of

    - [src/preprocessing/text_cleaner.py]  (class [TextPreprocessor]),
    - [src/models/conflict_predictor.py]   (class [ConflictPredictor]),
    - [src/visualizations/dashboard_generator.py]
      (methods [generate_monthly_report] and [_generate_early_warnings]
      of class [DashboardGenerator], and its two colour scales),
    - [src/preprocessing/feature_engineering.py]
      (methods [_map_location_to_region] and [create_geo_features] of
      class [FeatureEngineer]),
    - [deployment/api/app.py]  (the endpoint [predict_conflict_risk]),

    followed by the properties proved about them.  In
    [generate_monthly_report] the statements after
    [df['week'] = ...] are indented deeper than that line; they are
    read as the rest of the body of [if 'date' in df.columns].  In
    [feature_engineering.py] the annotations name [Tuple], which the
    file does not import; the methods are modelled as their bodies
    read.

    Modelling conventions.

    - A Python [float] is a rational number ([Q]): arithmetic is exact
      and binary64 rounding is not modelled.  The one non-number the
      code can produce, the [nan] that pandas returns for the mean of an
      empty column, is [None] of [option Q]; every comparison with it is
      false, as in Python.
    - A Python [str] is a [string] whose characters are read as the code
      points U+0000 to U+00FF; character classes ([\w], [\s], [\d]) and
      [str.lower] follow Python on that range.
    - Code of other packages (NLTK, emoji, TextBlob, VADER, scikit-learn)
      is not part of the repository: it enters as the fields of a record
      and the theorems hold for every value of that record.  Small
      stand-ins are defined only to evaluate the model on examples.
    - An exception is a value of [exn] returned in [result]. *)

From Stdlib Require Import QArith Qabs Qminmax Qround Lqa Lia ZArith.
From Stdlib Require Import String Ascii List Permutation Sorted DecimalString.
From Stdlib Require Import OrderedTypeEx.
From stdpp Require Import gmap strings.
Import ListNotations.

Local Open Scope string_scope.
Local Open Scope list_scope.

(* ===================================================================== *)
(** * Part I: the embedding                                              *)
(* ===================================================================== *)

(** ** Python floats and exceptions *)

Module Py.

(** [x > y], [x >= y], [x < y] and [x <= y] on floats. *)
Definition gt (x y : Q) : bool := negb (Qle_bool x y).
Definition ge (x y : Q) : bool := Qle_bool y x.
Definition lt (x y : Q) : bool := negb (Qle_bool y x).
Definition le (x y : Q) : bool := Qle_bool x y.

Inductive exn :=
| ValueError (msg : string)
| KeyError (key : string)
| ZeroDivisionError
| FileNotFoundError (path : string)
| LibraryError (msg : string).

Inductive result (A : Type) :=
| Ok (a : A)
| Raise (e : exn).
Arguments Ok {A} a.
Arguments Raise {A} e.

Definition bind {A B} (r : result A) (k : A -> result B) : result B :=
  match r with
  | Ok a => k a
  | Raise e => Raise e
  end.

(** [a / b] on numbers: division by zero raises. *)
Definition truediv (a b : Q) : result Q :=
  if Qeq_bool b 0 then Raise ZeroDivisionError else Ok (a / b)%Q.

(** [needle in haystack] on strings. *)
Fixpoint str_in (needle haystack : string) : bool :=
  String.prefix needle haystack ||
  match haystack with
  | EmptyString => false
  | String _ rest => str_in needle rest
  end.

(** [str(n)] for a non-negative integer. *)
Definition str_of_nat (n : nat) : string :=
  NilZero.string_of_uint (Nat.to_uint n).

End Py.

Notation "'let*' x := r 'in' k" := (Py.bind r (fun x => k))
  (at level 10, x name, r at level 100, k at level 200).

(** ** [text_cleaner.py] *)

Module TextPreprocessor.
Import Py.

(** What a caller may pass as [text]. *)
Inductive py_value :=
| PyStr (s : string)
| PyNone
| PyNumber (q : Q).

(** The dictionary returned by VADER's [polarity_scores]. *)
Record vader_scores := {
  compound : Q;
  pos : Q;
  neg : Q;
  neu : Q
}.

(** The resources [TextPreprocessor] takes from other packages. *)
Record nlp := {
  (** [stopwords.words('english')] *)
  stopwords_english : gset string;
  (** [WordNetLemmatizer().lemmatize] *)
  lemmatize : string -> string;
  (** [nltk.tokenize.word_tokenize] *)
  word_tokenize : string -> list string;
  (** [emoji.demojize] *)
  demojize : string -> string;
  (** [SentimentIntensityAnalyzer().polarity_scores] *)
  polarity_scores : string -> vader_scores;
  (** [TextBlob(s).sentiment] as (polarity, subjectivity) *)
  textblob_sentiment : string -> Q * Q
}.

(** *** Character classes of [re] on U+0000..U+00FF *)

Definition code (c : ascii) : N := N_of_ascii c.

Definition between (lo hi : N) (c : ascii) : bool :=
  ((lo <=? code c) && (code c <=? hi))%N.

(** [\s] *)
Definition is_space (c : ascii) : bool :=
  between 9 13 c || between 28 32 c || between 133 133 c || between 160 160 c.

(** [\d] *)
Definition is_digit (c : ascii) : bool := between 48 57 c.

(** [\w]: alphanumeric characters and the underscore. *)
Definition is_word (c : ascii) : bool :=
  is_digit c || between 65 90 c || between 95 95 c || between 97 122 c
  || between 170 170 c || between 178 179 c || between 181 181 c
  || between 185 186 c || between 188 190 c
  || between 192 214 c || between 216 246 c || between 248 255 c.

(** One character of [str.lower]. *)
Definition lower_char (c : ascii) : ascii :=
  if between 65 90 c || between 192 214 c || between 216 222 c
  then ascii_of_N (code c + 32)
  else c.

Fixpoint map_chars (f : ascii -> ascii) (s : string) : string :=
  match s with
  | EmptyString => EmptyString
  | String c rest => String (f c) (map_chars f rest)
  end.

Fixpoint remove_chars (p : ascii -> bool) (s : string) : string :=
  match s with
  | EmptyString => EmptyString
  | String c rest => if p c then remove_chars p rest else String c (remove_chars p rest)
  end.

(** [text.lower()] *)
Definition lower (text : string) : string := map_chars lower_char text.

(** *** The five [re.sub] calls of [clean_text] *)

(** [s] starts with [lit] followed by one character of [\S]. *)
Fixpoint starts_with_then_nonspace (lit s : string) : bool :=
  match lit, s with
  | EmptyString, String c _ => negb (is_space c)
  | EmptyString, EmptyString => false
  | String a lit', String c rest => Ascii.eqb a c && starts_with_then_nonspace lit' rest
  | String _ _, EmptyString => false
  end.

(** The pattern [http\S+|www\S+|https\S+] matches at the head of [s]. *)
Definition url_matches_here (s : string) : bool :=
  starts_with_then_nonspace "http" s
  || starts_with_then_nonspace "www" s
  || starts_with_then_nonspace "https" s.

(** [re.sub(r'http\S+|www\S+|https\S+', '', text)].  A match starts at
    the first position where the pattern matches and, [\S+] being
    greedy, runs to the end of the run of non-space characters;
    [in_match] says that the scan is inside a match. *)
Fixpoint sub_url_from (in_match : bool) (s : string) : string :=
  match s with
  | EmptyString => EmptyString
  | String c rest =>
      if in_match then
        if is_space c then String c (sub_url_from false rest)
        else sub_url_from true rest
      else if url_matches_here s then sub_url_from true rest
      else String c (sub_url_from false rest)
  end.

Definition sub_url (text : string) : string := sub_url_from false text.

(** The pattern [@\w+] matches at the head of [s]. *)
Definition mention_matches_here (s : string) : bool :=
  match s with
  | String "@" (String c _) => is_word c
  | _ => false
  end.

(** [re.sub(r'@\w+', '', text)] *)
Fixpoint sub_mention_from (in_match : bool) (s : string) : string :=
  match s with
  | EmptyString => EmptyString
  | String c rest =>
      if in_match && is_word c then sub_mention_from true rest
      else if mention_matches_here s then sub_mention_from true rest
      else String c (sub_mention_from false rest)
  end.

Definition sub_mention (text : string) : string := sub_mention_from false text.

(** [re.sub(r'#', '', text)] *)
Definition sub_hash (text : string) : string :=
  remove_chars (Ascii.eqb "#") text.

(** [re.sub(r'[^\w\s]', ' ', text)] *)
Definition sub_special (text : string) : string :=
  map_chars (fun c => if is_word c || is_space c then c else " "%char) text.

(** [re.sub(r'\d+', '', text)] *)
Definition sub_digits (text : string) : string := remove_chars is_digit text.

(** The statements of [clean_text] from [text.lower()] to the removal of
    numbers. *)
Definition strip (text : string) : string :=
  sub_digits (sub_special (sub_hash (sub_mention (sub_url (lower text))))).

(** *** [__init__] *)

(** [self.conflict_keywords] *)
Definition conflict_keywords : gset string :=
  list_to_set
    ["conflict"; "war"; "peace"; "violence"; "attack"; "protest";
     "demonstration"; "riot"; "clash"; "tension"; "security";
     "unrest"; "ceasefire"; "mediation"; "negotiation"].

Section with_nlp.
Context (nltk : nlp).

(** [self.stop_words] after [__init__]. *)
Definition stop_words : gset string :=
  stopwords_english nltk ∖ conflict_keywords.

(** *** [clean_text] *)

(** The condition of the list comprehension:
    [token not in self.stop_words and len(token) > 2]. *)
Definition keep_token (token : string) : bool :=
  bool_decide (token ∉ stop_words) && (2 <? String.length token)%nat.

(** The tokens joined by the last statement of [clean_text]. *)
Definition clean_tokens (text : string) : list string :=
  let text := strip text in
  let text := demojize nltk text in
  let tokens := word_tokenize nltk text in
  List.map (lemmatize nltk) (List.filter keep_token tokens).

Definition clean_text (text : py_value) : string :=
  match text with
  | PyStr s => String.concat " " (clean_tokens s)
  | _ => ""
  end.

(** *** [_get_sentiment_label] and [_calculate_risk_level] *)

Inductive SentimentLabel := Positive | Negative | Neutral.

Definition _get_sentiment_label (compound_score : Q) : SentimentLabel :=
  if ge compound_score (0.05)%Q then Positive
  else if le compound_score (-0.05)%Q then Negative
  else Neutral.

(** The four strings returned by [_calculate_risk_level]. *)
Inductive RiskLevel := Low | Medium | High | Critical.

Definition RiskLevel_str (r : RiskLevel) : string :=
  match r with
  | Low => "Low"
  | Medium => "Medium"
  | High => "High"
  | Critical => "Critical"
  end.

(** The position of a level in the order Low < Medium < High < Critical. *)
Definition rank (r : RiskLevel) : nat :=
  match r with
  | Low => 0
  | Medium => 1
  | High => 2
  | Critical => 3
  end.

Definition risk_score (sentiment conflict_intensity : Q) : Q :=
  (Qabs sentiment * 0.4 + conflict_intensity * 0.6)%Q.

Definition _calculate_risk_level (sentiment conflict_intensity : Q) : RiskLevel :=
  let risk_score := risk_score sentiment conflict_intensity in
  if gt risk_score (0.7)%Q then Critical
  else if gt risk_score (0.5)%Q then High
  else if gt risk_score (0.3)%Q then Medium
  else Low.

(** *** [analyze_sentiment] *)

Definition conflict_words : list string :=
  ["attack"; "violence"; "kill"; "death"; "protest";
   "riot"; "clash"; "unrest"; "tension"; "war"].

(** [sum(1 for word in conflict_words if word in text.lower())] *)
Definition conflict_count (text : string) : nat :=
  List.length (List.filter (fun word => str_in word (lower text)) conflict_words).

(** [min(a, b)] of Python: [b] when [b < a], else [a]. *)
Definition py_min (a b : Q) : Q := if lt b a then b else a.

(** [min(conflict_count / 5, 1.0)] *)
Definition conflict_intensity (text : string) : Q :=
  py_min (inject_Z (Z.of_nat (conflict_count text)) / 5)%Q 1%Q.

Record analysis := {
  a_text : string;
  a_cleaned_text : string;
  a_polarity_tb : Q;
  a_subjectivity_tb : Q;
  a_vader_compound : Q;
  a_vader_positive : Q;
  a_vader_negative : Q;
  a_vader_neutral : Q;
  a_conflict_intensity : Q;
  a_sentiment_label : SentimentLabel;
  a_risk_level : RiskLevel
}.

Definition analyze_sentiment (text : string) : analysis :=
  let cleaned_text := clean_text (PyStr text) in
  let blob := textblob_sentiment nltk cleaned_text in
  let vader := polarity_scores nltk text in
  let conflict_intensity := conflict_intensity text in
  {| a_text := text;
     a_cleaned_text := cleaned_text;
     a_polarity_tb := fst blob;
     a_subjectivity_tb := snd blob;
     a_vader_compound := compound vader;
     a_vader_positive := pos vader;
     a_vader_negative := neg vader;
     a_vader_neutral := neu vader;
     a_conflict_intensity := conflict_intensity;
     a_sentiment_label := _get_sentiment_label (compound vader);
     a_risk_level := _calculate_risk_level (compound vader) conflict_intensity |}.

End with_nlp.

(** *** Stand-ins used to evaluate the model *)

(** Splits at [\s] and drops empty pieces: what [word_tokenize] does on
    text made of letters and blanks. *)
Fixpoint split_blank (cur : string) (s : string) : list string :=
  match s with
  | EmptyString => if (String.length cur =? 0)%nat then [] else [cur]
  | String c rest =>
      if is_space c then
        if (String.length cur =? 0)%nat then split_blank "" rest
        else cur :: split_blank "" rest
      else split_blank (cur ++ String c "") rest
  end.

(** The older, shorter edition of NLTK's English stop word list. *)
Definition sample_stopwords : gset string :=
  list_to_set
    ["i"; "me"; "my"; "myself"; "we"; "our"; "ours"; "ourselves"; "you";
     "your"; "yours"; "yourself"; "yourselves"; "he"; "him"; "his";
     "himself"; "she"; "her"; "hers"; "herself"; "it"; "its"; "itself";
     "they"; "them"; "their"; "theirs"; "themselves"; "what"; "which";
     "who"; "whom"; "this"; "that"; "these"; "those"; "am"; "is"; "are";
     "was"; "were"; "be"; "been"; "being"; "have"; "has"; "had";
     "having"; "do"; "does"; "did"; "doing"; "a"; "an"; "the"; "and";
     "but"; "if"; "or"; "because"; "as"; "until"; "while"; "of"; "at";
     "by"; "for"; "with"; "about"; "against"; "between"; "into";
     "through"; "during"; "before"; "after"; "above"; "below"; "to";
     "from"; "up"; "down"; "in"; "out"; "on"; "off"; "over"; "under";
     "again"; "further"; "then"; "once"; "here"; "there"; "when";
     "where"; "why"; "how"; "all"; "any"; "both"; "each"; "few"; "more";
     "most"; "other"; "some"; "such"; "no"; "nor"; "not"; "only"; "own";
     "same"; "so"; "than"; "too"; "very"; "s"; "t"; "can"; "will";
     "just"; "don"; "should"; "now"].

(** A lemmatizer that knows no word, a tokenizer for plain text, and
    lexicons that score every text as neutral. *)
Definition sample_nlp : nlp :=
  {| stopwords_english := sample_stopwords;
     lemmatize := fun w => w;
     word_tokenize := split_blank "";
     demojize := fun s => s;
     polarity_scores := fun _ => {| compound := 0; pos := 0; neg := 0; neu := 1 |};
     textblob_sentiment := fun _ => (0%Q, 0%Q) |}.

End TextPreprocessor.

(** ** [conflict_predictor.py] *)

Module ConflictPredictor.
Import Py.

(** What [ConflictPredictor] takes from scikit-learn, XGBoost, LightGBM
    and joblib.  Every call into a library may raise. *)
Record sklearn := {
  (** feature tables, label vectors, probability tables *)
  frame : Type;
  labels : Type;
  probabilities : Type;
  (** estimators (fitted or not), scalers, importance rankings *)
  estimator : Type;
  scaler : Type;
  importance : Type;
  (** [StandardScaler()] *)
  StandardScaler : scaler;
  (** the four estimators built in [__init__] *)
  RandomForestClassifier : estimator;
  GradientBoostingClassifier : estimator;
  XGBClassifier : estimator;
  LGBMClassifier : estimator;
  (** [scaler.fit_transform(X)]: the fitted scaler and the scaled table *)
  fit_transform : scaler -> frame -> result (scaler * frame);
  (** [scaler.transform(X)] *)
  transform : scaler -> frame -> result frame;
  (** [estimator.fit(X, y)] *)
  fit : estimator -> frame -> labels -> result estimator;
  (** [GridSearchCV(estimator, param_grid, cv=5, scoring='accuracy')
      .fit(X, y).best_estimator_] *)
  grid_search_best : estimator -> frame -> labels -> result estimator;
  (** [estimator.predict(X)] and [estimator.predict_proba(X)] *)
  estimator_predict : estimator -> frame -> result labels;
  estimator_predict_proba : estimator -> frame -> result probabilities;
  (** the sorted importance table, when the estimator has
      [feature_importances_] *)
  feature_importances : estimator -> frame -> option importance;
  (** [accuracy_score], [classification_report] and [confusion_matrix]
      on the true and the predicted labels *)
  accuracy_score : labels -> labels -> result Q;
  classification_report : labels -> labels -> result string;
  confusion_matrix : labels -> labels -> result (list (list nat))
}.

Section with_sklearn.
Context (sk : sklearn).

(** The attributes of a [ConflictPredictor]. *)
Record predictor := {
  model_type : string;
  model : option (estimator sk);
  scaler_ : scaler sk;
  feature_importance : option (importance sk);
  models : gmap string (estimator sk)
}.

(** The dictionary written by [save_model]. *)
Record artifact := {
  saved_model : option (estimator sk);
  saved_scaler : scaler sk;
  saved_feature_importance : option (importance sk)
}.

(** Files written by [joblib.dump], by path. *)
Abbreviation files := (gmap string artifact).

Definition __init__ (model_type : string) : predictor :=
  {| model_type := model_type;
     model := None;
     scaler_ := StandardScaler sk;
     feature_importance := None;
     models :=
       <["random_forest" := RandomForestClassifier sk]>
       (<["gradient_boosting" := GradientBoostingClassifier sk]>
       (<["xgboost" := XGBClassifier sk]>
       (<["lightgbm" := LGBMClassifier sk]> ∅))) |}.

Definition set_scaler (self : predictor) (s : scaler sk) : predictor :=
  {| model_type := model_type self; model := model self; scaler_ := s;
     feature_importance := feature_importance self; models := models self |}.

Definition set_model (self : predictor) (m : option (estimator sk)) : predictor :=
  {| model_type := model_type self; model := m; scaler_ := scaler_ self;
     feature_importance := feature_importance self; models := models self |}.

Definition set_models (self : predictor) (ms : gmap string (estimator sk)) : predictor :=
  {| model_type := model_type self; model := model self; scaler_ := scaler_ self;
     feature_importance := feature_importance self; models := ms |}.

Definition set_feature_importance (self : predictor) (f : option (importance sk)) : predictor :=
  {| model_type := model_type self; model := model self; scaler_ := scaler_ self;
     feature_importance := f; models := models self |}.

(** [train]: the object after the call and what the call returned.  An
    exception leaves the attributes assigned before it. *)
Definition train (self : predictor) (X_train : frame sk) (y_train : labels sk)
  : predictor * result unit :=
  match fit_transform sk (scaler_ self) X_train with
  | Raise e => (self, Raise e)
  | Ok (fitted_scaler, X_train_scaled) =>
      let self := set_scaler self fitted_scaler in
      match models self !! model_type self with
      | None => (self, Raise (KeyError (model_type self)))
      | Some base =>
          let self := set_model self (Some base) in
          let fitted :=
            if String.eqb (model_type self) "random_forest"
            then grid_search_best sk base X_train_scaled y_train
            else fit sk base X_train_scaled y_train in
          match fitted with
          | Raise e => (self, Raise e)
          | Ok m =>
              let self := set_model self (Some m) in
              (* [fit] updates the object that [self.models] holds too;
                 the grid search returns a new estimator *)
              let self :=
                if String.eqb (model_type self) "random_forest" then self
                else set_models self (<[model_type self := m]> (models self)) in
              let self :=
                match feature_importances sk m X_train with
                | Some ranking => set_feature_importance self (Some ranking)
                | None => self
                end in
              (self, Ok tt)
          end
      end
  end.

(** The error of [predict] on an untrained model. *)
Definition ModelNotTrained : exn :=
  ValueError "Model not trained. Call train() first.".

Definition predict (self : predictor) (X : frame sk)
  : result (labels sk * probabilities sk) :=
  match model self with
  | None => Raise ModelNotTrained
  | Some m =>
      let* X_scaled := transform sk (scaler_ self) X in
      let* predictions := estimator_predict sk m X_scaled in
      let* probabilities := estimator_predict_proba sk m X_scaled in
      Ok (predictions, probabilities)
  end.

(** The dictionary returned by [evaluate]. *)
Record evaluation := {
  accuracy : Q;
  predictions : labels sk;
  probabilities_ : probabilities sk;
  confusion : list (list nat)
}.

Definition evaluate (self : predictor) (X_test : frame sk) (y_test : labels sk)
  : result evaluation :=
  let* predicted := predict self X_test in
  let* accuracy := accuracy_score sk y_test (fst predicted) in
  let* _ := classification_report sk y_test (fst predicted) in
  let* cm := confusion_matrix sk y_test (fst predicted) in
  Ok {| accuracy := accuracy;
        predictions := fst predicted;
        probabilities_ := snd predicted;
        confusion := cm |}.

Definition save_model (self : predictor) (filepath : string) (fs : files) : files :=
  <[filepath := {| saved_model := model self;
                   saved_scaler := scaler_ self;
                   saved_feature_importance := feature_importance self |}]> fs.

Definition load_model (self : predictor) (filepath : string) (fs : files)
  : predictor * result unit :=
  match fs !! filepath with
  | None => (self, Raise (FileNotFoundError filepath))
  | Some saved_data =>
      ({| model_type := model_type self;
          model := saved_model saved_data;
          scaler_ := saved_scaler saved_data;
          feature_importance := saved_feature_importance saved_data;
          models := models self |}, Ok tt)
  end.

(** Calls on one predictor, and their effect on it and on the files. *)
Inductive call :=
| Train (X : frame sk) (y : labels sk)
| Predict (X : frame sk)
| Evaluate (X : frame sk) (y : labels sk)
| SaveModel (filepath : string)
| LoadModel (filepath : string).

Definition step (c : call) (w : predictor * files) : predictor * files :=
  let (self, fs) := w in
  match c with
  | Train X y => (fst (train self X y), fs)
  | Predict _ => (self, fs)
  | Evaluate _ _ => (self, fs)
  | SaveModel filepath => (self, save_model self filepath fs)
  | LoadModel filepath => (fst (load_model self filepath fs), fs)
  end.

Definition run (calls : list call) (w : predictor * files) : predictor * files :=
  fold_left (fun w c => step c w) calls w.

(** Calls that are neither [train] nor [load_model]. *)
Definition leaves_untrained (c : call) : bool :=
  match c with
  | Train _ _ | LoadModel _ => false
  | _ => true
  end.

End with_sklearn.

(** *** A stand-in used to evaluate the model: one feature per record,
    centred by the scaler, classified by its sign. *)

Definition centre (m : Q) (X : list Q) : list Q := List.map (fun x => (x - m)%Q) X.

Definition sample_sklearn : sklearn :=
  {| frame := list Q;
     labels := list bool;
     probabilities := list Q;
     estimator := bool;
     scaler := Q;
     importance := unit;
     StandardScaler := 0%Q;
     RandomForestClassifier := false;
     GradientBoostingClassifier := false;
     XGBClassifier := false;
     LGBMClassifier := false;
     fit_transform := fun _ X =>
       match X with
       | [] => Raise (ValueError "Found array with 0 sample(s)")
       | x :: _ => Ok (x, centre x X)
       end;
     transform := fun m X => Ok (centre m X);
     fit := fun _ _ _ => Ok true;
     grid_search_best := fun _ _ _ => Ok true;
     estimator_predict := fun fitted X =>
       if fitted then Ok (List.map (fun x => gt x 0) X)
       else Raise (LibraryError "NotFittedError");
     estimator_predict_proba := fun fitted X =>
       if fitted then Ok (List.map (fun x => if gt x 0 then 1%Q else 0%Q) X)
       else Raise (LibraryError "NotFittedError");
     feature_importances := fun _ _ => Some tt;
     accuracy_score := fun _ _ => Ok 1%Q;
     classification_report := fun _ _ => Ok "";
     confusion_matrix := fun _ _ => Ok [] |}.


(** *** [prepare_features] *)

(** The list [feature_columns] as first assigned. *)
Definition core_features : list string :=
  ["polarity_tb"; "vader_compound"; "conflict_intensity";
   "total_engagement"; "engagement_rate"; "dayofweek"; "hour";
   "month_sin"; "month_cos"; "hour_sin"; "hour_cos"].

(** [col in df.columns] *)
Definition is_column (columns : list string) (col : string) : bool :=
  existsb (String.eqb col) columns.

(** [col.startswith(prefix)] *)
Definition startswith (prefix col : string) : bool := String.prefix prefix col.

(** The value of [feature_columns] that [prepare_features] returns, for
    a table with the given columns. *)
Definition select_features (columns : list string) : list string :=
  let feature_columns := core_features in
  let region_cols := List.filter (startswith "region_") columns in
  let feature_columns := feature_columns ++ region_cols in
  let lag_cols :=
    List.filter (fun col => str_in "lag" col || str_in "rolling" col) columns in
  let feature_columns := feature_columns ++ lag_cols in
  List.filter (is_column columns) feature_columns.

(** [prepare_features] on the names of the columns: [df[feature_columns]]
    selects existing columns, [df[target_column]] raises when the target
    is no column. *)
Definition prepare_features (columns : list string) (target_column : string)
  : result (list string) :=
  let feature_columns := select_features columns in
  if is_column columns target_column
  then Ok feature_columns
  else Raise (KeyError target_column).

End ConflictPredictor.

(** ** [dashboard_generator.py] *)

Module DashboardGenerator.
Import Py.

(** *** The table passed to the report *)

(** One record of the batch.  [date] is a timestamp. *)
Record Row := {
  date : Z;
  region : string;
  vader_compound : Q;
  conflict_intensity : Q;
  risk_level : string
}.

(** A [DataFrame]: the names of its columns and its records.  A field
    of [Row] whose column is not listed is never read. *)
Record DataFrame := {
  columns : list string;
  rows : list Row
}.

(** ['name' in df.columns] *)
Definition has_column (df : DataFrame) (name : string) : bool :=
  existsb (String.eqb name) (columns df).

(** *** pandas operations used by the report *)

Definition total (l : list Q) : Q := fold_right Qplus 0%Q l.

(** [Series.mean()]: [nan] on an empty series. *)
Definition mean (l : list Q) : option Q :=
  match l with
  | [] => None
  | _ => Some (total l / inject_Z (Z.of_nat (List.length l)))%Q
  end.

(** [Series.head(n)] and [Series.tail(n)] *)
Definition head {A} (n : nat) (l : list A) : list A := firstn n l.
Definition tail {A} (n : nat) (l : list A) : list A := skipn (List.length l - n) l.

(** Stable insertion sort, ascending for the order [le]. *)
Fixpoint insert_sorted {A} (le : A -> A -> bool) (x : A) (l : list A) : list A :=
  match l with
  | [] => [x]
  | y :: l' => if le x y then x :: l else y :: insert_sorted le x l'
  end.

Definition sort_by {A} (le : A -> A -> bool) (l : list A) : list A :=
  fold_right (insert_sorted le) [] l.

(** [df.sort_values('date')]; records of equal date keep the order of
    the table. *)
Definition sort_values_date (l : list Row) : list Row :=
  sort_by (fun a b => (date a <=? date b)%Z) l.

(** The distinct keys of a [groupby], in ascending order. *)
Fixpoint insert_key {K} (cmp : K -> K -> comparison) (k : K) (l : list K) : list K :=
  match l with
  | [] => [k]
  | x :: l' =>
      match cmp k x with
      | Lt => k :: l
      | Eq => l
      | Gt => x :: insert_key cmp k l'
      end
  end.

Definition group_keys {K} (cmp : K -> K -> comparison) (ks : list K) : list K :=
  fold_right (insert_key cmp) [] ks.

Definition same_key {K} (cmp : K -> K -> comparison) (a b : K) : bool :=
  match cmp a b with
  | Eq => true
  | _ => false
  end.

(** [df.groupby(key)]: each key with its records, in the order of the
    table. *)
Definition groupby {K} (cmp : K -> K -> comparison) (key : Row -> K) (l : list Row)
  : list (K * list Row) :=
  List.map (fun k => (k, List.filter (fun r => same_key cmp (key r) k) l))
           (group_keys cmp (List.map key l)).

(** [x.isin(['High', 'Critical'])] *)
Definition is_high_risk (r : Row) : bool :=
  String.eqb (risk_level r) "High" || String.eqb (risk_level r) "Critical".

Definition count_high_risk (l : list Row) : nat :=
  List.length (List.filter is_high_risk l).

Definition of_nat (n : nat) : Q := inject_Z (Z.of_nat n).

(** [lambda x: (x.isin(['High', 'Critical']).sum() / len(x) * 100)] *)
Definition risk_percentage (x : list Row) : result Q :=
  let* share := truediv (of_nat (count_high_risk x)) (of_nat (List.length x)) in
  Ok (share * 100)%Q.

(** Rounding to the nearest integer, ties to the even one. *)
Definition round_half_even (x : Q) : Z :=
  let f := Qfloor x in
  match Qcompare (x - inject_Z f) (1 # 2) with
  | Lt => f
  | Gt => (f + 1)%Z
  | Eq => if Z.even f then f else (f + 1)%Z
  end.

(** [.round(2)] on one value. *)
Definition round2 (x : Q) : Q := (inject_Z (round_half_even (x * 100)) / 100)%Q.

Definition nan_round2 (x : option Q) : option Q :=
  match x with
  | Some q => Some (round2 q)
  | None => None
  end.

Definition str_of_Z (n : Z) : string := NilZero.string_of_uint (N.to_uint (Z.to_N n)).

(** [f"{x:.2f}"] *)
Definition format_2f (x : Q) : string :=
  let n := round_half_even (Qabs x * 100) in
  let cents := (n mod 100)%Z in
  (if lt x 0 then "-" else "")
  ++ str_of_Z (n / 100) ++ "."
  ++ (if (cents <? 10)%Z then "0" else "") ++ str_of_Z cents.

(** *** [_generate_early_warnings] *)

Record Warning := {
  type : string;
  severity : string;
  message : string;
  suggested_action : string
}.

Definition sentiment_drop_warning (recent_sentiment previous_sentiment : Q) : Warning :=
  {| type := "sentiment_drop";
     severity := "high";
     message := "Significant sentiment drop detected: "
                ++ format_2f recent_sentiment ++ " vs " ++ format_2f previous_sentiment;
     suggested_action := "Monitor social media for potential unrest triggers" |}.

Definition high_intensity_warning (high_intensity_count : nat) : Warning :=
  {| type := "high_intensity_cluster";
     severity := "critical";
     message := str_of_nat high_intensity_count
                ++ " high-intensity conflict mentions detected";
     suggested_action := "Deploy rapid response teams to affected regions" |}.

(** The first [if] of [_generate_early_warnings]. *)
Definition sentiment_drop_check (df : DataFrame) : list Warning :=
  if has_column df "vader_compound" && has_column df "date" then
    let df_sorted := sort_values_date (rows df) in
    let recent_sentiment := mean (tail 7 (List.map vader_compound df_sorted)) in
    let previous_sentiment := mean (head 7 (tail 14 (List.map vader_compound df_sorted))) in
    match recent_sentiment, previous_sentiment with
    | Some recent, Some previous =>
        if lt recent (previous - 0.3)%Q
        then [sentiment_drop_warning recent previous]
        else []
    | _, _ => []
    end
  else [].

(** [len(df[df['conflict_intensity'] > 0.7])] *)
Definition high_intensity_count (df : DataFrame) : nat :=
  List.length (List.filter (fun r => gt (conflict_intensity r) 0.7%Q) (rows df)).

(** The second [if] of [_generate_early_warnings]. *)
Definition intensity_cluster_check (df : DataFrame) : list Warning :=
  if has_column df "conflict_intensity" then
    if (10 <? high_intensity_count df)%nat
    then [high_intensity_warning (high_intensity_count df)]
    else []
  else [].

Definition _generate_early_warnings (df : DataFrame) : list Warning :=
  let warnings := [] in
  let warnings := warnings ++ sentiment_drop_check df in
  let warnings := warnings ++ intensity_cluster_check df in
  warnings.

(** The warnings of one [type]. *)
Definition of_type (t : string) (ws : list Warning) : list Warning :=
  List.filter (fun w => String.eqb (type w) t) ws.

(** *** [generate_monthly_report] *)

(** The value of [datetime.now()]. *)
Record datetime := {
  dt_year : nat;
  dt_month : nat;
  dt_day : nat;
  dt_hour : nat;
  dt_minute : nat;
  dt_second : nat;
  dt_microsecond : nat
}.

(** A number in at least [width] digits, padded with zeros. *)
Definition zero_padded (width n : nat) : string :=
  let digits := str_of_nat n in
  String.concat "" (repeat "0" (width - String.length digits)) ++ digits.

(** [now.strftime('%Y-%m-%d %H:%M:%S')] *)
Definition strftime (now : datetime) : string :=
  zero_padded 4 (dt_year now) ++ "-" ++ zero_padded 2 (dt_month now) ++ "-"
  ++ zero_padded 2 (dt_day now) ++ " " ++ zero_padded 2 (dt_hour now) ++ ":"
  ++ zero_padded 2 (dt_minute now) ++ ":" ++ zero_padded 2 (dt_second now).

(** [report_data['summary']] *)
Record Summary := {
  total_tweets_analyzed : nat;
  high_risk_tweets : nat;
  high_risk_percentage : Q;
  average_sentiment : option Q;
  average_conflict_intensity : option Q
}.

(** One line of [regional_stats], and of [weekly_trends] with the week
    as key. *)
Record Stats (K : Type) := {
  key : K;
  stats_vader_compound : option Q;
  stats_conflict_intensity : option Q;
  stats_risk_level : Q
}.
Arguments key {K} _.
Arguments stats_vader_compound {K} _.
Arguments stats_conflict_intensity {K} _.
Arguments stats_risk_level {K} _.

Record KeyFindings := {
  top_high_risk_regions : list string;
  most_negative_sentiment_region : string;
  highest_conflict_intensity_region : string
}.

Record Trends := {
  weekly_sentiment_trend : list (option Q);
  weekly_intensity_trend : list (option Q);
  weekly_risk_trend : list Q;
  peak_risk_week : Z
}.

Record Report := {
  month : string;
  year : Z;
  generated_date : string;
  summary : Summary;
  regional_analysis : list (Stats string);
  key_findings : KeyFindings;
  (** [None] is the empty dictionary left when there is no date column *)
  trends : option Trends;
  recommendations : list string;
  early_warnings : list Warning
}.

(** The statements under "Overall statistics". *)
Definition overall_statistics (df : DataFrame) : result Summary :=
  let total_tweets := List.length (rows df) in
  let high_risk_tweets := count_high_risk (rows df) in
  let* percentage :=
    if (0 <? total_tweets)%nat
    then (let* share := truediv (of_nat high_risk_tweets) (of_nat total_tweets) in
          Ok (share * 100)%Q)
    else Ok 0%Q in
  Ok {| total_tweets_analyzed := total_tweets;
        high_risk_tweets := high_risk_tweets;
        high_risk_percentage := percentage;
        average_sentiment := mean (List.map vader_compound (rows df));
        average_conflict_intensity := mean (List.map conflict_intensity (rows df)) |}.

(** The aggregation of one group: two means and the lambda. *)
Definition aggregate {K} (g : K * list Row) : result (Stats K) :=
  let* risk := risk_percentage (snd g) in
  Ok {| key := fst g;
        stats_vader_compound := mean (List.map vader_compound (snd g));
        stats_conflict_intensity := mean (List.map conflict_intensity (snd g));
        stats_risk_level := risk |}.

Fixpoint aggregate_all {K} (gs : list (K * list Row)) : result (list (Stats K)) :=
  match gs with
  | [] => Ok []
  | g :: gs' =>
      let* s := aggregate g in
      let* rest := aggregate_all gs' in
      Ok (s :: rest)
  end.

Definition round_stats {K} (s : Stats K) : Stats K :=
  {| key := key s;
     stats_vader_compound := nan_round2 (stats_vader_compound s);
     stats_conflict_intensity := nan_round2 (stats_conflict_intensity s);
     stats_risk_level := round2 (stats_risk_level s) |}.

(** [df.groupby('region').agg({...}).round(2)] *)
Definition regional_statistics (df : DataFrame) : result (list (Stats string)) :=
  let* stats := aggregate_all (groupby String.compare region (rows df)) in
  Ok (List.map round_stats stats).

(** [nlargest(3, 'risk_level').index.tolist()]: the three largest, ties
    in the order of the table. *)
Definition nlargest_3 (stats : list (Stats string)) : list string :=
  List.map key
    (firstn 3 (sort_by (fun a b => Qle_bool (stats_risk_level b) (stats_risk_level a)) stats)).

(** The label of the first entry that no other entry is below (above):
    [idxmin()] and [idxmax()].  Both raise on an empty series. *)
Fixpoint first_best {K} (better : Q -> Q -> bool) (best : K * Q) (l : list (K * Q)) : K :=
  match l with
  | [] => fst best
  | x :: l' => first_best better (if better (snd x) (snd best) then x else best) l'
  end.

Definition idxmin {K} (l : list (K * Q)) : result K :=
  match l with
  | [] => Raise (ValueError "attempt to get argmin of an empty sequence")
  | x :: l' => Ok (first_best lt x l')
  end.

Definition idxmax {K} (l : list (K * Q)) : result K :=
  match l with
  | [] => Raise (ValueError "attempt to get argmax of an empty sequence")
  | x :: l' => Ok (first_best gt x l')
  end.

(** The entries of a column that are numbers, with their labels. *)
Definition labelled {K} (f : Stats K -> option Q) (stats : list (Stats K)) : list (K * Q) :=
  flat_map (fun s => match f s with Some q => [(key s, q)] | None => [] end) stats.

Definition labelled_risk {K} (stats : list (Stats K)) : list (K * Q) :=
  List.map (fun s => (key s, stats_risk_level s)) stats.

Definition recommendation (region : string) : string :=
  "Increase monitoring and peacekeeping presence in " ++ region.

Section with_calendar.
(** [Series.dt.isocalendar().week] on one timestamp. *)
Context (isocalendar_week : Z -> Z).

(** The statements under "Add trend analysis". *)
Definition trend_analysis (df : DataFrame) : result (option Trends) :=
  if has_column df "date" then
    let* weekly_trends :=
      aggregate_all (groupby Z.compare (fun r => isocalendar_week (date r)) (rows df)) in
    let* peak := idxmax (labelled_risk weekly_trends) in
    Ok (Some {| weekly_sentiment_trend := List.map stats_vader_compound weekly_trends;
                weekly_intensity_trend := List.map stats_conflict_intensity weekly_trends;
                weekly_risk_trend := List.map stats_risk_level weekly_trends;
                peak_risk_week := peak |})
  else Ok None.

(** A column that the report reads must exist. *)
Definition require_column (df : DataFrame) (name : string) : result unit :=
  if has_column df name then Ok tt else Raise (KeyError name).

Definition generate_monthly_report
  (now : datetime) (df : DataFrame) (month : string) (year : Z) : result Report :=
  let generated_date := strftime now in
  let* _ := require_column df "risk_level" in
  let* _ := require_column df "vader_compound" in
  let* _ := require_column df "conflict_intensity" in
  let* summary := overall_statistics df in
  let* _ := require_column df "region" in
  let* regional_stats := regional_statistics df in
  let top_high_risk_regions := nlargest_3 regional_stats in
  let* most_negative := idxmin (labelled stats_vader_compound regional_stats) in
  let* highest_intensity := idxmax (labelled stats_conflict_intensity regional_stats) in
  let recommendations := List.map recommendation top_high_risk_regions in
  let* trends := trend_analysis df in
  Ok {| month := month;
        year := year;
        generated_date := generated_date;
        summary := summary;
        regional_analysis := regional_stats;
        key_findings :=
          {| top_high_risk_regions := top_high_risk_regions;
             most_negative_sentiment_region := most_negative;
             highest_conflict_intensity_region := highest_intensity |};
        trends := trends;
        recommendations := recommendations;
        early_warnings := _generate_early_warnings df |}.

End with_calendar.

(** The report with its time stamp replaced. *)
Definition with_generated_date (d : string) (r : Report) : Report :=
  {| month := month r;
     year := year r;
     generated_date := d;
     summary := summary r;
     regional_analysis := regional_analysis r;
     key_findings := key_findings r;
     trends := trends r;
     recommendations := recommendations r;
     early_warnings := early_warnings r |}.

(** *** Colours *)





(** *** Batches and clock readings used to evaluate the model *)

Definition all_columns : list string :=
  ["date"; "region"; "vader_compound"; "conflict_intensity"; "risk_level"].

Definition record (d : Z) (where_ : string) (sentiment intensity : Q) (level : string) : Row :=
  {| date := d; region := where_; vader_compound := sentiment;
     conflict_intensity := intensity; risk_level := level |}.

(** Fourteen records, newest first: compound -0.5 on days 8 to 14 and
    -0.1 on days 1 to 7. *)
Definition sentiment_drop_batch : DataFrame :=
  {| columns := all_columns;
     rows := List.map (fun d => record d "Nairobi" (if (7 <? d)%Z then -0.5 else -0.1)%Q 0.2%Q "Low")
               [14; 13; 12; 11; 10; 9; 8; 7; 6; 5; 4; 3; 2; 1]%Z |}.


(** Eleven records at intensity 0.9 around two records at 0.5. *)
Definition cluster_batch : DataFrame :=
  {| columns := all_columns;
     rows := record 1 "Mombasa" 0.1%Q 0.5%Q "Low"
             :: repeat (record 2 "Nairobi" (-0.6)%Q 0.9%Q "Critical") 11
             ++ [record 3 "Mombasa" 0.1%Q 0.5%Q "Low"] |}.

(** Three records without a date column. *)
Definition undated_batch : DataFrame :=
  {| columns := ["region"; "vader_compound"; "conflict_intensity"; "risk_level"];
     rows := [record 0 "Nairobi" (-0.5)%Q 0.8%Q "High";
              record 0 "Mombasa" 0.2%Q 0.2%Q "Low";
              record 0 "Nairobi" (-0.7)%Q 1%Q "Critical"] |}.

(** 2024-06-01 09:05:07, the same second 250 microseconds later, and
    the next second. *)
Definition clock_reading (second microsecond : nat) : datetime :=
  {| dt_year := 2024; dt_month := 6; dt_day := 1; dt_hour := 9; dt_minute := 5;
     dt_second := second; dt_microsecond := microsecond |}.

End DashboardGenerator.

(** ** [feature_engineering.py] *)

Module FeatureEngineer.
Import Py.

(** The dictionary [region_keywords], in the order it is written. *)
Definition region_keywords : list (string * list string) :=
  [("Nairobi", ["nairobi"; "nrb"]);
   ("Mombasa", ["mombasa"; "mom"; "coast"]);
   ("Kisumu", ["kisumu"; "lake"; "nyanza"]);
   ("Nakuru", ["nakuru"; "rift"]);
   ("Eldoret", ["eldoret"; "uasin"]);
   ("Meru", ["meru"; "eastern"])].

(** [any(keyword in location_lower for keyword in keywords)] *)
Definition any_keyword (keywords : list string) (location_lower : string) : bool :=
  existsb (fun keyword => str_in keyword location_lower) keywords.

(** The loop over [region_keywords.items()] and the final [return]. *)
Fixpoint first_region (table : list (string * list string)) (location_lower : string)
  : string :=
  match table with
  | [] => "Other"
  | (region, keywords) :: rest =>
      if any_keyword keywords location_lower then region
      else first_region rest location_lower
  end.

(** [_map_location_to_region]; the argument [region_coords] is not
    read. *)
Definition _map_location_to_region {C : Type}
  (location : TextPreprocessor.py_value) (region_coords : C) : string :=
  match location with
  | TextPreprocessor.PyStr s => first_region region_keywords (TextPreprocessor.lower s)
  | _ => "Unknown"
  end.

(** The columns that [create_geo_features] adds to its copy of [df]:
    [region], and one column [region_<name>] for each key of
    [region_coords], in the order of the keys. *)
Record geo_columns := {
  region_column : list string;
  one_hot : list (string * list Z)
}.

(** [create_geo_features] on the column [user_location] of [df],
    [None] when [df] has no such column; then no column is added.  The
    dictionary [region_coords] is the list of its items. *)
Definition create_geo_features {C : Type}
  (user_location : option (list TextPreprocessor.py_value))
  (region_coords : list (string * C)) : option geo_columns :=
  match user_location with
  | None => None
  | Some locations =>
      let region := List.map (fun x => _map_location_to_region x region_coords) locations in
      Some {| region_column := region;
              one_hot :=
                List.map (fun item =>
                            (("region_" ++ fst item)%string,
                             List.map (fun r => if String.eqb r (fst item) then 1%Z else 0%Z)
                                      region))
                         region_coords |}
  end.

(** Locations and coordinates used to evaluate the model. *)
Definition sample_locations : list TextPreprocessor.py_value :=
  [TextPreprocessor.PyStr "Nairobi, Kenya"; TextPreprocessor.PyNone;
   TextPreprocessor.PyStr "Lake Victoria"; TextPreprocessor.PyStr "London"].

Definition sample_coords : list (string * (Q * Q)) :=
  [("Nairobi", (-1.29, 36.82)%Q); ("Mombasa", (-4.04, 39.67)%Q); ("Kisumu", (-0.10, 34.76)%Q)].

End FeatureEngineer.

(** ** [deployment/api/app.py] *)

Module Api.
Import Py.

(** One [TweetData] of a request. *)
Record TweetData := {
  text : string;
  region : option string;
  timestamp : option string;
  user_location : option string;
  retweet_count : option Z;
  favorite_count : option Z
}.

(** One entry of [predictions]: the analysis with the region added. *)
Record prediction := {
  analysis : TextPreprocessor.analysis;
  prediction_region : option string
}.

(** [risk_level in ['High', 'Critical']] *)
Definition is_high_risk (p : prediction) : bool :=
  match TextPreprocessor.a_risk_level (analysis p) with
  | TextPreprocessor.High | TextPreprocessor.Critical => true
  | _ => false
  end.

(** The loop over the rows of [tweets_df]. *)
Definition analyze_all (nltk : TextPreprocessor.nlp) (tweets : list TweetData)
  : list prediction :=
  List.map (fun tweet =>
              {| analysis := TextPreprocessor.analyze_sentiment nltk (text tweet);
                 prediction_region := region tweet |})
           tweets.

Definition high_risk_count (predictions : list prediction) : nat :=
  List.length (List.filter is_high_risk predictions).

Definition of_nat (n : nat) : Q := inject_Z (Z.of_nat n).

(** [(high_risk_count / total_tweets * 100) if total_tweets > 0 else 0] *)
Definition high_risk_percentage (predictions : list prediction) : result Q :=
  let total_tweets := List.length predictions in
  if (0 <? total_tweets)%nat
  then (let* share := truediv (of_nat (high_risk_count predictions)) (of_nat total_tweets) in
        Ok (share * 100)%Q)
  else Ok 0%Q.

(** The chain of comparisons that assigns [overall_risk]. *)
Definition overall_risk_of (high_risk_percentage : Q) : TextPreprocessor.RiskLevel :=
  if gt high_risk_percentage 70%Q then TextPreprocessor.Critical
  else if gt high_risk_percentage 50%Q then TextPreprocessor.High
  else if gt high_risk_percentage 30%Q then TextPreprocessor.Medium
  else TextPreprocessor.Low.

(** The records that [groupby('region')] keeps: those with a region. *)
Definition with_region (predictions : list prediction) : list (string * prediction) :=
  flat_map (fun p => match prediction_region p with
                     | Some r => [(r, p)]
                     | None => []
                     end) predictions.

(** [predictions_df.groupby('region')]: each region, in ascending order,
    with its predictions. *)
Definition groupby_region (predictions : list prediction)
  : list (string * list prediction) :=
  let named := with_region predictions in
  List.map (fun k =>
              (k, List.map snd
                    (List.filter (fun rp => DashboardGenerator.same_key String.compare (fst rp) k)
                                 named)))
           (DashboardGenerator.group_keys String.compare (List.map fst named)).

(** [x.isin(['High', 'Critical']).sum() / len(x) * 100] on numpy
    numbers: dividing zero by zero gives [nan] and does not raise. *)
Definition share_percent (x : list prediction) : option Q :=
  if (List.length x =? 0)%nat then None
  else Some (of_nat (high_risk_count x) / of_nat (List.length x) * 100)%Q.

(** [region_risks] *)
Definition region_risks (predictions : list prediction) : list (string * option Q) :=
  List.map (fun g => (fst g, share_percent (snd g))) (groupby_region predictions).

(** [risk > 50] on a value that may be [nan]. *)
Definition above_50 (risk : option Q) : bool :=
  match risk with
  | Some q => gt q 50%Q
  | None => false
  end.

(** The statements under "Find high risk regions". *)
Definition high_risk_regions (predictions : list prediction) : list string :=
  match predictions with
  | [] => []
  | _ => List.map fst (List.filter (fun kr => above_50 (snd kr)) (region_risks predictions))
  end.

(** What [predict_conflict_risk] computes before it writes the
    visualisation: the predictions, the overall risk and the high risk
    regions. *)
Record overview := {
  predictions : list prediction;
  overall_risk : TextPreprocessor.RiskLevel;
  risky_regions : list string
}.

Definition risk_overview (nltk : TextPreprocessor.nlp) (tweets : list TweetData)
  : result overview :=
  let predictions := analyze_all nltk tweets in
  let* high_risk_percentage := high_risk_percentage predictions in
  Ok {| predictions := predictions;
        overall_risk := overall_risk_of high_risk_percentage;
        risky_regions := high_risk_regions predictions |}.

(** *** A request used to evaluate the model *)

Definition tweet (t : string) (r : option string) : TweetData :=
  {| text := t; region := r; timestamp := None; user_location := None;
     retweet_count := None; favorite_count := None |}.

(** Two tweets from Nairobi with five conflict words each, and one
    from Kisumu without any. *)
Definition alarming_request : list TweetData :=
  [tweet "Attack and violence: kill, death, protest" (Some "Nairobi");
   tweet "A quiet day at the lake" (Some "Kisumu");
   tweet "Riot, clash, unrest, tension and war" (Some "Nairobi")].

End Api.

(** ** Notions used in the statements of Part II *)

Module Notions.
Import Py TextPreprocessor.

(** The thresholds of [_calculate_risk_level] on the score alone. *)
Definition level_of_score (score : Q) : RiskLevel :=
  if gt score 0.7%Q then Critical
  else if gt score 0.5%Q then High
  else if gt score 0.3%Q then Medium
  else Low.

(** [w] is a substring of [t]. *)
Definition occurs_in (w t : string) : Prop :=
  exists before after : string, t = (before ++ w ++ after)%string.

(** Every character of [s] satisfies [p]. *)
Fixpoint all_chars (p : ascii -> bool) (s : string) : bool :=
  match s with
  | EmptyString => true
  | String c rest => p c && all_chars p rest
  end.




(** Ascending order of dates. *)
Definition date_le (a b : DashboardGenerator.Row) : Prop :=
  (DashboardGenerator.date a <= DashboardGenerator.date b)%Z.

(** The call did not end in a division by zero. *)
Definition no_zero_division {A} (r : result A) : Prop := r <> Raise ZeroDivisionError.

(** A capital letter: A to Z or a capital of U+00C0..U+00DE. *)
Definition is_capital (c : ascii) : bool :=
  between 65 90 c || between 192 214 c || between 216 222 c.

(** What the passes of [strip] can leave: a word character or white
    space that is neither a digit nor a capital letter. *)
Definition is_stripped (c : ascii) : bool :=
  (is_word c || is_space c) && negb (is_digit c) && negb (is_capital c).

(** The first character of a text, if any, satisfies [p]. *)
Definition head_is (p : ascii -> bool) (s : string) : bool :=
  match s with
  | EmptyString => false
  | String c _ => p c
  end.

(** The label of the opposite sentiment. *)
Definition mirror (l : SentimentLabel) : SentimentLabel :=
  match l with
  | Positive => Negative
  | Negative => Positive
  | Neutral => Neutral
  end.

(** Strictly ascending for the comparison [cmp]. *)
Definition ascending {K} (cmp : K -> K -> comparison) (l : list K) : Prop :=
  StronglySorted (fun a b => cmp a b = Lt) l.

(** The aggregate of a group that has records: its two means and the
    percentage of its records that are High or Critical. *)
Definition stats_of {K} (g : K * list DashboardGenerator.Row) : DashboardGenerator.Stats K :=
  {| DashboardGenerator.key := fst g;
     DashboardGenerator.stats_vader_compound :=
       DashboardGenerator.mean (List.map DashboardGenerator.vader_compound (snd g));
     DashboardGenerator.stats_conflict_intensity :=
       DashboardGenerator.mean (List.map DashboardGenerator.conflict_intensity (snd g));
     DashboardGenerator.stats_risk_level :=
       (DashboardGenerator.of_nat (DashboardGenerator.count_high_risk (snd g))
        / DashboardGenerator.of_nat (List.length (snd g)) * 100)%Q |}.

(** The records of a table with a given region. *)
Definition records_of_region (region : string) (l : list DashboardGenerator.Row)
  : list DashboardGenerator.Row :=
  List.filter (fun r => String.eqb (DashboardGenerator.region r) region) l.


(** The records of a table whose date falls in a given week. *)
Definition records_of_week (week : Z -> Z) (w : Z) (l : list DashboardGenerator.Row)
  : list DashboardGenerator.Row :=
  List.filter (fun r => Z.eqb (week (DashboardGenerator.date r)) w) l.

(** The predictions of a request that carry a given region. *)
Definition predictions_of_region (k : string) (ps : list Api.prediction)
  : list Api.prediction :=
  List.filter (fun p => match Api.prediction_region p with
                        | Some r => String.eqb r k
                        | None => false
                        end) ps.

(** The one-hot flags of the record at position [i]. *)
Definition flags_of_row (i : nat) (g : FeatureEngineer.geo_columns) : list Z :=
  List.map (fun column => List.nth i (snd column) 0%Z) (FeatureEngineer.one_hot g).

Definition sum_Z (l : list Z) : Z := fold_right Z.add 0%Z l.

End Notions.

(* ===================================================================== *)
(** * Part II: properties                                                *)
(* ===================================================================== *)

(** ** Comparisons of floats *)

Module PyFacts.
Import Py.

Lemma gt_true (x y : Q) : gt x y = true <-> (y < x)%Q.
Proof.
  unfold gt. rewrite negb_true_iff. split.
  - intros H. apply Qnot_le_lt. intros Hle.
    apply Qle_bool_iff in Hle. congruence.
  - intros H. destruct (Qle_bool x y) eqn:E; [|reflexivity].
    apply Qle_bool_iff in E. lra.
Qed.

Lemma gt_false (x y : Q) : gt x y = false <-> (x <= y)%Q.
Proof.
  unfold gt. rewrite negb_false_iff. apply Qle_bool_iff.
Qed.

Lemma lt_true (x y : Q) : lt x y = true <-> (x < y)%Q.
Proof. apply gt_true. Qed.

Lemma lt_false (x y : Q) : lt x y = false <-> (y <= x)%Q.
Proof. apply gt_false. Qed.

Lemma Qle_bool_false (a b : Q) : Qle_bool a b = false -> (b < a)%Q.
Proof.
  intros H. apply Qnot_le_lt. intros Hle. apply Qle_bool_iff in Hle. congruence.
Qed.

Lemma of_nat_pos (n : nat) : (0 < n)%nat -> (0 < inject_Z (Z.of_nat n))%Q.
Proof.
  intros H. change 0%Q with (inject_Z 0). rewrite <- Zlt_Qlt. lia.
Qed.

(** Division by a positive count does not raise. *)
Lemma truediv_count (a : Q) (n : nat) :
  (0 < n)%nat ->
  truediv a (inject_Z (Z.of_nat n)) = Ok (a / inject_Z (Z.of_nat n))%Q.
Proof.
  intros H. unfold truediv.
  destruct (Qeq_bool (inject_Z (Z.of_nat n)) 0) eqn:E; [|reflexivity].
  apply Qeq_bool_iff in E. pose proof (of_nat_pos n H). lra.
Qed.

End PyFacts.

(** ** Risk levels *)

Module RiskLevelProofs.
Import Py PyFacts TextPreprocessor Notions.
Local Open Scope Q_scope.



Lemma level_of_score_bands (x : Q) :
  (level_of_score x = Critical <-> 0.7 < x) /\
  (level_of_score x = High <-> 0.5 < x /\ x <= 0.7) /\
  (level_of_score x = Medium <-> 0.3 < x /\ x <= 0.5) /\
  (level_of_score x = Low <-> x <= 0.3).
Proof.
  unfold level_of_score.
  destruct (gt x 0.7) eqn:E7; [apply gt_true in E7 | apply gt_false in E7];
  (destruct (gt x 0.5) eqn:E5; [apply gt_true in E5 | apply gt_false in E5]);
  (destruct (gt x 0.3) eqn:E3; [apply gt_true in E3 | apply gt_false in E3]);
  repeat split; intros; try discriminate; try lra;
  repeat match goal with H : _ /\ _ |- _ => destruct H end; try lra.
Qed.







End RiskLevelProofs.

(** ** Conflict intensity *)

Module IntensityProofs.
Import Py PyFacts TextPreprocessor Notions.

Lemma prefix_true (w t : string) :
  String.prefix w t = true <-> exists after : string, t = (w ++ after)%string.
Proof.
  revert t. induction w as [|a w IH]; intros t.
  - split; [intros _; now exists t | intros _; destruct t; reflexivity].
  - destruct t as [|b t]; simpl.
    + split; [discriminate | intros [after H]; discriminate].
    + destruct (ascii_dec a b) as [->|Hab].
      * rewrite IH. split; intros [after H]; exists after.
        -- now rewrite H.
        -- now inversion H.
      * split; [discriminate | intros [after H]; inversion H; congruence].
Qed.

Lemma str_in_unfold (w t : string) :
  str_in w t =
  String.prefix w t || match t with EmptyString => false | String _ rest => str_in w rest end.
Proof. destruct t; reflexivity. Qed.

(** The operator [in] decides the substring relation. *)
Lemma str_in_true (w t : string) : str_in w t = true <-> occurs_in w t.
Proof.
  induction t as [|c t IH]; rewrite str_in_unfold, orb_true_iff, prefix_true.
  - split.
    + intros [[after H]|H]; [|discriminate]. now exists "", after.
    + intros (before & after & H). left.
      destruct before; [|discriminate]. now exists after.
  - rewrite IH. split.
    + intros [[after H]|(before & after & H)].
      * now exists "", after.
      * exists (String c before), after. simpl. now rewrite H.
    + intros (before & after & H). destruct before as [|b before]; simpl in H.
      * left. now exists after.
      * right. inversion H. now exists before, after.
Qed.

Lemma py_min_Qmin (a b : Q) : (py_min a b == Qmin a b)%Q.
Proof.
  unfold py_min. destruct (lt b a) eqn:E.
  - apply lt_true in E. symmetry. apply Q.min_r. lra.
  - apply lt_false in E. symmetry. now apply Q.min_l.
Qed.

Lemma conflict_words_NoDup : List.NoDup conflict_words.
Proof.
  unfold conflict_words.
  repeat (constructor; [simpl; intuition discriminate|]). constructor.
Qed.

(** C5.  The conflict intensity of a text is min(k/5, 1.0), where k is
    the number of words of the fixed list [conflict_words] that occur
    as substrings of the lowercased text; texts that differ only in
    case have the same intensity; and the text "Protest planned
    tomorrow, violence expected" has intensity at least 0.4. *)
Theorem conflict_intensity_is_capped_share :
  (forall text : string,
     exists hits : list string,
       List.NoDup hits /\
       (forall w, List.In w hits <-> List.In w conflict_words /\ occurs_in w (lower text)) /\
       (conflict_intensity text == Qmin (inject_Z (Z.of_nat (List.length hits)) / 5) 1)%Q) /\
  (forall t1 t2 : string,
     lower t1 = lower t2 -> conflict_intensity t1 = conflict_intensity t2) /\
  (0.4 <= conflict_intensity "Protest planned tomorrow, violence expected")%Q.
Proof.
  split; [|split].
  - intros text.
    exists (List.filter (fun word => str_in word (lower text)) conflict_words).
    split; [|split].
    + apply List.NoDup_filter, conflict_words_NoDup.
    + intros w. rewrite List.filter_In, str_in_true. reflexivity.
    + unfold conflict_intensity, conflict_count. apply py_min_Qmin.
  - intros t1 t2 H. unfold conflict_intensity, conflict_count. now rewrite H.
  - vm_compute. discriminate.
Qed.

(** "PROTEST and Violence" and "protest and violence" have the same
    intensity. *)
Lemma conflict_intensity_is_capped_share_witness :
  conflict_intensity "PROTEST and Violence" = conflict_intensity "protest and violence".
Proof.
  apply (proj1 (proj2 conflict_intensity_is_capped_share)). reflexivity.
Defined.

End IntensityProofs.

(** ** The stop word filter *)

Module FilterProofs.
Import Py TextPreprocessor.

Lemma conflict_keywords_long (token : string) :
  token ∈ conflict_keywords -> (2 < String.length token)%nat.
Proof.
  unfold conflict_keywords. rewrite elem_of_list_to_set. intros H.
  repeat (apply elem_of_cons in H as [->|H]; [simpl; lia|]).
  now apply elem_of_nil in H.
Qed.

Lemma keep_token_true (nltk : nlp) (token : string) :
  keep_token nltk token = true <->
  (token ∉ stopwords_english nltk \/ token ∈ conflict_keywords) /\
  (2 < String.length token)%nat.
Proof.
  unfold keep_token, stop_words.
  rewrite andb_true_iff, bool_decide_eq_true, Nat.ltb_lt, not_elem_of_difference.
  reflexivity.
Qed.

(** C8, as the code has it.  A token passes the filter exactly when it
    is longer than two characters and is either outside the English
    stop word list or in the allowlist of conflict and peace words.
    Hence a token of the allowlist is always kept, a token of one or
    two characters is always dropped, stop word or not, and a longer
    token is dropped only when it is a stop word outside the
    allowlist. *)
Theorem stopword_filter_rule (nltk : nlp) (token : string) :
  (keep_token nltk token = true <->
     (token ∉ stopwords_english nltk \/ token ∈ conflict_keywords) /\
     (2 < String.length token)%nat) /\
  (token ∈ conflict_keywords -> keep_token nltk token = true) /\
  ((String.length token <= 2)%nat -> keep_token nltk token = false) /\
  (keep_token nltk token = false -> (2 < String.length token)%nat ->
     token ∈ stopwords_english nltk /\ token ∉ conflict_keywords).
Proof.
  pose proof (keep_token_true nltk token) as K.
  split; [exact K|]. split; [|split].
  - intros H. apply K. split; [now right | now apply conflict_keywords_long].
  - intros H. destruct (keep_token nltk token) eqn:E; [|reflexivity].
    apply keep_token_true in E. lia.
  - intros E Hlen.
    destruct (decide (token ∈ stopwords_english nltk)) as [Hin|Hout].
    + split; [exact Hin|]. intros Hkw.
      assert (keep_token nltk token = true) by (apply K; tauto). congruence.
    + assert (keep_token nltk token = true) by (apply K; tauto). congruence.
Qed.

(** With the sample stop words: "war" is kept, "the" and "is" are
    dropped, and so is "ox", which is no stop word. *)
Lemma stopword_filter_rule_witness :
  keep_token sample_nlp "war" = true /\
  keep_token sample_nlp "is" = false /\
  ("the" ∈ stopwords_english sample_nlp /\ "the" ∉ conflict_keywords).
Proof.
  split; [|split].
  - apply (proj1 (proj2 (stopword_filter_rule sample_nlp "war"))).
    apply (bool_decide_unpack _). vm_compute. exact I.
  - apply (proj1 (proj2 (proj2 (stopword_filter_rule sample_nlp "is")))).
    simpl. lia.
  - apply (proj2 (proj2 (proj2 (stopword_filter_rule sample_nlp "the")))).
    + vm_compute. reflexivity.
    + simpl. lia.
Defined.

(** C8, as stated, fails.  The claim keeps every token of one or two
    characters: if it is a stop word because of its length, and if it
    is not because tokens outside the stop word set survive whatever
    their length.  The code drops "ox" whatever the stop word list. *)
Lemma short_token_is_dropped :
  ~ exists nltk : nlp, keep_token nltk "ox" = true.
Proof.
  intros [nltk H]. apply keep_token_true in H as [_ H]. simpl in H. lia.
Qed.

End FilterProofs.

(** ** Normalising twice *)

Module NormalizeProofs.
Import Py TextPreprocessor Notions IntensityProofs FilterProofs.


Lemma all_chars_weaken (p q : ascii -> bool) (s : string) :
  (forall c, p c = true -> q c = true) ->
  all_chars p s = true -> all_chars q s = true.
Proof.
  intros Hpq. induction s as [|c s IH]; simpl; [reflexivity|].
  rewrite !andb_true_iff. intros [Hc Hs]. auto.
Qed.

Lemma all_chars_append (p : ascii -> bool) (s t : string) :
  all_chars p (s ++ t)%string = all_chars p s && all_chars p t.
Proof.
  induction s as [|c s IH]; simpl; [reflexivity|].
  now rewrite IH, andb_assoc.
Qed.










Lemma filter_all {A} (f : A -> bool) (l : list A) :
  Forall (fun x => f x = true) l -> List.filter f l = l.
Proof.
  induction 1 as [|x l Hx _ IH]; simpl; [reflexivity|]. now rewrite Hx, IH.
Qed.





(** The sample resources meet the conditions of
    [clean_text_not_idempotent]; with them the two passes give
    "httpfoo" and the empty string. *)
Lemma clean_text_twice_sample :
  clean_text sample_nlp (PyStr "ht1tpfoo") = "httpfoo" /\
  clean_text sample_nlp (PyStr "httpfoo") = "" /\
  word_tokenize sample_nlp "httpfoo" = ["httpfoo"] /\
  lemmatize sample_nlp "httpfoo" = "httpfoo" /\
  "httpfoo" ∉ stopwords_english sample_nlp.
Proof.
  repeat split; try (vm_compute; reflexivity).
  apply (bool_decide_unpack _). vm_compute. exact I.
Qed.

End NormalizeProofs.

(** ** The life cycle of a predictor *)

Module PredictorProofs.
Import Py ConflictPredictor.

Section with_sklearn.
Context (sk : sklearn).

Lemma step_keeps_untrained (c : call sk) (w : predictor sk * gmap string (artifact sk)) :
  leaves_untrained sk c = true ->
  model sk (fst w) = None -> model sk (fst (step sk c w)) = None.
Proof.
  destruct w as [self fs]. destruct c; simpl; intros Hc Hm;
    try discriminate Hc; exact Hm.
Qed.

Lemma run_keeps_untrained (calls : list (call sk)) :
  forall w : predictor sk * gmap string (artifact sk),
    forallb (leaves_untrained sk) calls = true ->
    model sk (fst w) = None -> model sk (fst (run sk calls w)) = None.
Proof.
  unfold run. induction calls as [|c calls IH]; intros w Hcs Hm; simpl; [exact Hm|].
  simpl in Hcs. apply andb_true_iff in Hcs as [Hc Hcs].
  apply IH; [exact Hcs|]. now apply step_keeps_untrained.
Qed.

Lemma predict_untrained (self : predictor sk) (X : frame sk) :
  model sk self = None -> predict sk self X = Raise ModelNotTrained.
Proof. intros H. unfold predict. now rewrite H. Qed.

(** What a successful [train] leaves in the object. *)
Lemma train_ok (self self' : predictor sk) (X : frame sk) (y : labels sk) :
  train sk self X y = (self', Ok tt) ->
  exists (fitted_scaler : scaler sk) (X_scaled : frame sk) (m : estimator sk),
    fit_transform sk (scaler_ sk self) X = Ok (fitted_scaler, X_scaled) /\
    scaler_ sk self' = fitted_scaler /\
    model sk self' = Some m.
Proof.
  unfold train.
  destruct (fit_transform sk (scaler_ sk self) X) as [[fitted_scaler X_scaled]|e];
    [|discriminate].
  cbn [models set_scaler model_type].
  destruct (models sk self !! model_type sk self) as [base|]; [|discriminate].
  cbn [model_type set_model set_scaler].
  match goal with
  | |- context [match ?f with Ok _ => _ | Raise _ => _ end] => destruct f as [m|e]
  end; [|discriminate].
  intros H. exists fitted_scaler, X_scaled, m. split; [reflexivity|].
  inversion H as [H']. clear H H'.
  destruct (String.eqb (model_type sk self) "random_forest");
    destruct (feature_importances sk m X); split; reflexivity.
Qed.

(** C2.  On a new predictor, and after any calls other than [train]
    and [load_model], [predict] raises the "Model not trained" error
    and nothing else, and so does [evaluate].  After a [train] that
    returned, the scaler of the object is the one fitted on the
    training table, and [predict] transforms its input with that
    scaler and returns the labels together with the class
    probabilities of the fitted estimator. *)
Theorem predict_requires_training :
  (forall (model_type : string) (fs : gmap string (artifact sk))
          (calls : list (call sk)) (X : frame sk) (y : labels sk),
     forallb (leaves_untrained sk) calls = true ->
     let self := fst (run sk calls (__init__ sk model_type, fs)) in
     predict sk self X = Raise ModelNotTrained /\
     evaluate sk self X y = Raise ModelNotTrained) /\
  (forall (self self' : predictor sk) (X_train : frame sk) (y_train : labels sk),
     train sk self X_train y_train = (self', Ok tt) ->
     exists (fitted_scaler : scaler sk) (X_train_scaled : frame sk) (m : estimator sk),
       fit_transform sk (scaler_ sk self) X_train = Ok (fitted_scaler, X_train_scaled) /\
       scaler_ sk self' = fitted_scaler /\
       model sk self' = Some m /\
       forall X : frame sk,
         predict sk self' X =
         (let* X_scaled := transform sk fitted_scaler X in
          let* predictions := estimator_predict sk m X_scaled in
          let* probabilities := estimator_predict_proba sk m X_scaled in
          Ok (predictions, probabilities))).
Proof.
  split.
  - intros model_type fs calls X y Hcalls self.
    assert (Hm : model sk self = None).
    { apply run_keeps_untrained; [exact Hcalls | reflexivity]. }
    split; [now apply predict_untrained|].
    unfold evaluate. now rewrite predict_untrained.
  - intros self self' X_train y_train Htrain.
    destruct (train_ok _ _ _ _ Htrain) as (fitted_scaler & Xs & m & Hfit & Hsc & Hm).
    exists fitted_scaler, Xs, m. repeat split; try assumption.
    intros X. unfold predict. now rewrite Hm, Hsc.
Qed.

End with_sklearn.

(** With the sample library: a new "xgboost" predictor that was only
    asked to predict, evaluate and save refuses to predict; trained on
    the table [3; 5] it centres [2; 7] by 3 and labels it by sign. *)
Lemma predict_requires_training_witness :
  predict sample_sklearn
    (fst (run sample_sklearn
            [Predict sample_sklearn [1%Q]; SaveModel sample_sklearn "model.pkl";
             Evaluate sample_sklearn [1%Q] [true]]
            (__init__ sample_sklearn "xgboost", ∅)))
    [1%Q]
  = Raise ModelNotTrained /\
  predict sample_sklearn
    (fst (train sample_sklearn (__init__ sample_sklearn "xgboost") [3%Q; 5%Q] [false; true]))
    [2%Q; 7%Q]
  = Ok ([false; true], [0%Q; 1%Q]).
Proof.
  split.
  - apply (proj1 (predict_requires_training sample_sklearn) "xgboost" ∅ _ [1%Q] [true]).
    reflexivity.
  - destruct (proj2 (predict_requires_training sample_sklearn)
                (__init__ sample_sklearn "xgboost")
                (fst (train sample_sklearn (__init__ sample_sklearn "xgboost")
                        [3%Q; 5%Q] [false; true]))
                [3%Q; 5%Q] [false; true] eq_refl)
      as (fitted_scaler & Xs & m & Hfit & Hsc & Hm & Hpredict).
    rewrite Hpredict.
    vm_compute in Hfit. inversion Hfit; subst fitted_scaler Xs.
    vm_compute in Hm. inversion Hm; subst m.
    vm_compute. reflexivity.
Defined.

End PredictorProofs.

(** ** Early warnings *)

Module WarningProofs.
Import Py PyFacts DashboardGenerator Notions.

(** *** Sorting by date *)

Lemma insert_sorted_Permutation {A} (le : A -> A -> bool) (x : A) (l : list A) :
  Permutation (x :: l) (insert_sorted le x l).
Proof.
  induction l as [|y l IH]; simpl; [reflexivity|].
  destruct (le x y); [reflexivity|].
  rewrite perm_swap. now apply perm_skip.
Qed.

Lemma sort_by_Permutation {A} (le : A -> A -> bool) (l : list A) :
  Permutation l (sort_by le l).
Proof.
  unfold sort_by. induction l as [|x l IH]; simpl; [reflexivity|].
  rewrite <- insert_sorted_Permutation. now apply perm_skip.
Qed.

Lemma insert_by_date_sorted (x : Row) (l : list Row) :
  StronglySorted date_le l ->
  StronglySorted date_le (insert_sorted (fun a b => (date a <=? date b)%Z) x l).
Proof.
  induction 1 as [|y l Hl IH Hy]; simpl.
  - constructor; constructor.
  - destruct (date x <=? date y)%Z eqn:E.
    + apply Z.leb_le in E. constructor; [now constructor|].
      constructor; [exact E|].
      eapply List.Forall_impl; [|exact Hy]. unfold date_le. intros; lia.
    + apply Z.leb_gt in E. constructor; [exact IH|].
      eapply Permutation_Forall; [apply insert_sorted_Permutation|].
      constructor; [unfold date_le; lia | exact Hy].
Qed.

(** [sort_values_date] orders the records by date and keeps them all. *)
Lemma sort_values_date_sorted (l : list Row) :
  StronglySorted date_le (sort_values_date l) /\ Permutation l (sort_values_date l).
Proof.
  split; [|apply sort_by_Permutation].
  unfold sort_values_date, sort_by.
  induction l as [|x l IH]; simpl; [constructor|].
  now apply insert_by_date_sorted.
Qed.

(** *** Windows at the end of a series *)




(** *** Warnings by type *)

Lemma of_type_app (t : string) (a b : list Warning) :
  of_type t (a ++ b) = of_type t a ++ of_type t b.
Proof. apply List.filter_app. Qed.

Lemma sentiment_alerts (df : DataFrame) :
  of_type "sentiment_drop" (_generate_early_warnings df) = sentiment_drop_check df.
Proof.
  unfold _generate_early_warnings. cbn zeta. rewrite !of_type_app.
  assert (E : of_type "sentiment_drop" (intensity_cluster_check df) = []).
  { unfold intensity_cluster_check.
    destruct (has_column df "conflict_intensity"); [|reflexivity].
    destruct (10 <? high_intensity_count df)%nat; reflexivity. }
  rewrite E, app_nil_r. simpl.
  unfold sentiment_drop_check.
  destruct (has_column df "vader_compound" && has_column df "date"); [|reflexivity].
  cbn zeta.
  destruct (mean _) as [recent|]; [|reflexivity].
  destruct (mean _) as [previous|]; [|reflexivity].
  destruct (lt recent (previous - 0.3)); reflexivity.
Qed.

Lemma cluster_alerts (df : DataFrame) :
  of_type "high_intensity_cluster" (_generate_early_warnings df) = intensity_cluster_check df.
Proof.
  unfold _generate_early_warnings. cbn zeta. rewrite !of_type_app.
  assert (E : of_type "high_intensity_cluster" (sentiment_drop_check df) = []).
  { unfold sentiment_drop_check.
    destruct (has_column df "vader_compound" && has_column df "date"); [|reflexivity].
    cbn zeta.
    destruct (mean _) as [recent|]; [|reflexivity].
    destruct (mean _) as [previous|]; [|reflexivity].
    destruct (lt recent (previous - 0.3)); reflexivity. }
  rewrite E. simpl.
  unfold intensity_cluster_check.
  destruct (has_column df "conflict_intensity"); [|reflexivity].
  destruct (10 <? high_intensity_count df)%nat; reflexivity.
Qed.


(** With at most seven records the two windows are the same records,
    so no drop is reported, whatever the sentiments. *)
Lemma sentiment_drop_needs_eight_records (df : DataFrame) :
  (List.length (rows df) <= 7)%nat ->
  of_type "sentiment_drop" (_generate_early_warnings df) = [].
Proof.
  intros Hlen. rewrite sentiment_alerts. unfold sentiment_drop_check.
  destruct (has_column df "vader_compound" && has_column df "date"); [|reflexivity].
  cbn zeta.
  assert (Hs : (List.length (List.map vader_compound (sort_values_date (rows df))) <= 7)%nat).
  { rewrite List.length_map. unfold sort_values_date.
    now rewrite <- (Permutation_length (sort_by_Permutation _ (rows df))). }
  set (series := List.map vader_compound (sort_values_date (rows df))) in *.
  assert (E7 : tail 7 series = series).
  { unfold tail. replace (List.length series - 7)%nat with 0%nat by lia. reflexivity. }
  assert (E14 : tail 14 series = series).
  { unfold tail. replace (List.length series - 14)%nat with 0%nat by lia. reflexivity. }
  assert (H7 : head 7 series = series).
  { unfold head. now apply List.firstn_all2. }
  rewrite E7, E14, H7.
  destruct (mean series) as [m|]; [|reflexivity].
  assert (E : lt m (m - 0.3) = false) by (apply lt_false; lra).
  now rewrite E.
Qed.



(** *** Counting records above the threshold *)

Lemma filter_length_Permutation {A} (f : A -> bool) (l l' : list A) :
  Permutation l l' -> List.length (List.filter f l) = List.length (List.filter f l').
Proof.
  induction 1 as [|x l l' _ IH|x y l|l l' l'' _ IH1 _ IH2]; simpl.
  - reflexivity.
  - destruct (f x); simpl; congruence.
  - destruct (f x), (f y); reflexivity.
  - congruence.
Qed.

Lemma filter_none {A} (f : A -> bool) (l : list A) :
  Forall (fun x => f x = false) l -> List.filter f l = [].
Proof.
  induction 1 as [|x l Hx _ IH]; simpl; [reflexivity|]. now rewrite Hx.
Qed.

Lemma filter_every {A} (f : A -> bool) (l : list A) :
  Forall (fun x => f x = true) l -> List.filter f l = l.
Proof.
  induction 1 as [|x l Hx _ IH]; simpl; [reflexivity|]. now rewrite Hx, IH.
Qed.

(** The count of the code is the number of records above 0.7. *)
Lemma high_intensity_count_split (df : DataFrame) (above others : list Row) :
  Permutation (rows df) (above ++ others) ->
  Forall (fun r => (0.7 < conflict_intensity r)%Q) above ->
  Forall (fun r => (conflict_intensity r <= 0.7)%Q) others ->
  high_intensity_count df = List.length above.
Proof.
  intros Hperm Ha Ho. unfold high_intensity_count.
  rewrite (filter_length_Permutation _ _ _ Hperm), List.filter_app, List.length_app.
  rewrite filter_every, filter_none; [simpl; lia| |].
  - eapply List.Forall_impl; [|exact Ho]. intros r Hr. now apply gt_false.
  - eapply List.Forall_impl; [|exact Ha]. intros r Hr. now apply gt_true.
Qed.

(** C4.  Split a batch into the records whose conflict intensity is
    above 0.7 and the others.  The detector emits a
    high_intensity_cluster warning of severity critical, whose message
    names the number of records above 0.7, when that number exceeds 10,
    and no such warning otherwise.  A batch with 11 records at 0.9 and
    all others below 0.7 gets exactly one such warning. *)
Theorem intensity_cluster_rule :
  (forall (df : DataFrame) (above others : list Row),
     has_column df "conflict_intensity" = true ->
     Permutation (rows df) (above ++ others) ->
     Forall (fun r => (0.7 < conflict_intensity r)%Q) above ->
     Forall (fun r => (conflict_intensity r <= 0.7)%Q) others ->
     let n := List.length above in
     let alerts := of_type "high_intensity_cluster" (_generate_early_warnings df) in
     ((10 < n)%nat -> alerts = [high_intensity_warning n]) /\
     ((n <= 10)%nat -> alerts = []) /\
     severity (high_intensity_warning n) = "critical" /\
     message (high_intensity_warning n) =
       (str_of_nat n ++ " high-intensity conflict mentions detected")%string) /\
  (forall (df : DataFrame) (hot rest : list Row),
     has_column df "conflict_intensity" = true ->
     Permutation (rows df) (hot ++ rest) ->
     List.length hot = 11%nat ->
     Forall (fun r => (conflict_intensity r == 0.9)%Q) hot ->
     Forall (fun r => (conflict_intensity r < 0.7)%Q) rest ->
     of_type "high_intensity_cluster" (_generate_early_warnings df) =
       [high_intensity_warning 11]).
Proof.
  assert (G : forall (df : DataFrame) (above others : list Row),
     has_column df "conflict_intensity" = true ->
     Permutation (rows df) (above ++ others) ->
     Forall (fun r => (0.7 < conflict_intensity r)%Q) above ->
     Forall (fun r => (conflict_intensity r <= 0.7)%Q) others ->
     of_type "high_intensity_cluster" (_generate_early_warnings df) =
     if (10 <? List.length above)%nat
     then [high_intensity_warning (List.length above)] else []).
  { intros df above others Hc Hperm Ha Ho.
    rewrite cluster_alerts. unfold intensity_cluster_check.
    now rewrite Hc, (high_intensity_count_split df above others Hperm Ha Ho). }
  split.
  - intros df above others Hc Hperm Ha Ho n alerts.
    unfold alerts. rewrite (G df above others Hc Hperm Ha Ho). fold n.
    split; [|split; [|split; reflexivity]].
    + intros H. apply Nat.ltb_lt in H. now rewrite H.
    + intros H. assert (E : (10 <? n)%nat = false) by (apply Nat.ltb_ge; lia).
      now rewrite E.
  - intros df hot rest Hc Hperm Hlen Hhot Hrest.
    rewrite (G df hot rest Hc Hperm), Hlen; [reflexivity| |].
    + eapply List.Forall_impl; [|exact Hhot]. intros r Hr. simpl in Hr. lra.
    + eapply List.Forall_impl; [|exact Hrest]. intros r Hr. simpl in Hr. lra.
Qed.

(** [cluster_batch] has eleven records at 0.9 and two at 0.5: one
    warning, naming 11. *)
Lemma intensity_cluster_rule_witness :
  of_type "high_intensity_cluster" (_generate_early_warnings cluster_batch) =
    [high_intensity_warning 11] /\
  message (high_intensity_warning 11) = "11 high-intensity conflict mentions detected".
Proof.
  split; [|reflexivity].
  apply (proj2 intensity_cluster_rule cluster_batch
           (repeat (record 2 "Nairobi" (-0.6)%Q 0.9%Q "Critical") 11)
           [record 1 "Mombasa" 0.1%Q 0.5%Q "Low"; record 3 "Mombasa" 0.1%Q 0.5%Q "Low"]).
  - reflexivity.
  - unfold cluster_batch. cbn [rows]. apply Permutation_middle.
  - reflexivity.
  - repeat constructor.
  - repeat constructor.
Defined.

End WarningProofs.

(** ** The monthly report *)

Module ReportProofs.
Import Py PyFacts DashboardGenerator Notions.

(** *** Groups are never empty *)

Lemma insert_key_In {K} (cmp : K -> K -> comparison) (k x : K) (l : list K) :
  List.In k (insert_key cmp x l) -> k = x \/ List.In k l.
Proof.
  induction l as [|y l IH]; simpl.
  - intros [H|[]]. now left.
  - destruct (cmp x y); simpl.
    + intros H. now right.
    + intros [H|H]; [now left | now right].
    + intros [H|H]; [right; now left|].
      destruct (IH H) as [H'|H']; [now left | right; now right].
Qed.

Lemma group_keys_In {K} (cmp : K -> K -> comparison) (k : K) (ks : list K) :
  List.In k (group_keys cmp ks) -> List.In k ks.
Proof.
  unfold group_keys. induction ks as [|x ks IH]; simpl; [tauto|].
  intros H. apply insert_key_In in H as [H|H]; [now left | right; now apply IH].
Qed.

Lemma groupby_nonempty {K} (cmp : K -> K -> comparison) (key : Row -> K) (l : list Row) :
  (forall k, cmp k k = Eq) ->
  Forall (fun g => (0 < List.length (snd g))%nat) (groupby cmp key l).
Proof.
  intros Hrefl. unfold groupby. apply List.Forall_forall. intros g Hg.
  apply List.in_map_iff in Hg as (k & <- & Hk). simpl.
  apply group_keys_In, List.in_map_iff in Hk as (r & <- & Hr).
  assert (Hin : List.In r (List.filter (fun r' => same_key cmp (key r') (key r)) l)).
  { apply List.filter_In. split; [exact Hr|]. unfold same_key. now rewrite Hrefl. }
  destruct (List.filter _ l); [destruct Hin | simpl; lia].
Qed.

Lemma String_compare_refl (s : string) : String.compare s s = Eq.
Proof.
  pose proof (String.compare_antisym s s) as H.
  destruct (String.compare s s); simpl in H; congruence.
Qed.

(** *** No step of the report divides by zero *)

Lemma risk_percentage_ok (x : list Row) :
  (0 < List.length x)%nat -> exists q : Q, risk_percentage x = Ok q.
Proof.
  intros H. unfold risk_percentage, of_nat.
  rewrite (truediv_count _ _ H). simpl. eauto.
Qed.

Lemma aggregate_all_ok {K} (gs : list (K * list Row)) :
  Forall (fun g => (0 < List.length (snd g))%nat) gs ->
  exists stats : list (Stats K), aggregate_all gs = Ok stats.
Proof.
  induction 1 as [|g gs Hg _ [stats IH]]; simpl; [eauto|].
  unfold aggregate. destruct (risk_percentage_ok _ Hg) as [q Hq].
  rewrite Hq. simpl. rewrite IH. simpl. eauto.
Qed.

Lemma overall_statistics_ok (df : DataFrame) :
  exists s : Summary, overall_statistics df = Ok s.
Proof.
  unfold overall_statistics.
  destruct (0 <? List.length (rows df))%nat eqn:E.
  - apply Nat.ltb_lt in E. unfold of_nat. rewrite (truediv_count _ _ E). simpl. eauto.
  - simpl. eauto.
Qed.

Lemma regional_statistics_ok (df : DataFrame) :
  exists stats : list (Stats string), regional_statistics df = Ok stats.
Proof.
  unfold regional_statistics.
  destruct (aggregate_all_ok (groupby String.compare region (rows df))) as [stats H].
  - apply groupby_nonempty, String_compare_refl.
  - rewrite H. simpl. eauto.
Qed.

Lemma bind_no_zero_division {A B} (r : result A) (k : A -> result B) :
  no_zero_division r ->
  (forall a, r = Ok a -> no_zero_division (k a)) ->
  no_zero_division (let* a := r in k a).
Proof.
  unfold no_zero_division. intros Hr Hk. destruct r as [a|e]; simpl.
  - now apply Hk.
  - intros H. apply Hr. now inversion H.
Qed.

Lemma ok_no_zero_division {A} (r : result A) :
  (exists a, r = Ok a) -> no_zero_division r.
Proof. intros [a ->]. discriminate. Qed.

Lemma require_column_no_zero_division (df : DataFrame) (name : string) :
  no_zero_division (require_column df name).
Proof. unfold require_column. destruct (has_column df name); discriminate. Qed.

Lemma idxmin_no_zero_division {K} (l : list (K * Q)) : no_zero_division (idxmin l).
Proof. destruct l; discriminate. Qed.

Lemma idxmax_no_zero_division {K} (l : list (K * Q)) : no_zero_division (idxmax l).
Proof. destruct l; discriminate. Qed.

Lemma trend_analysis_no_zero_division (week : Z -> Z) (df : DataFrame) :
  no_zero_division (trend_analysis week df).
Proof.
  unfold trend_analysis. destruct (has_column df "date"); [|discriminate].
  apply bind_no_zero_division.
  - apply ok_no_zero_division, aggregate_all_ok, groupby_nonempty, Z.compare_refl.
  - intros weekly _. apply bind_no_zero_division; [apply idxmax_no_zero_division|].
    intros peak _. discriminate.
Qed.

(** C10.  On a batch without records the summary is computed, its
    percentage of high-risk records is 0 and its total is 0; the
    division is behind the test [total_tweets > 0], so on no batch does
    the summary raise, and no step of the report ends in a division by
    zero. *)
Theorem empty_batch_percentage_is_guarded :
  (forall cols : list string,
     exists s : Summary,
       overall_statistics {| columns := cols; rows := [] |} = Ok s /\
       high_risk_percentage s = 0%Q /\
       total_tweets_analyzed s = 0%nat) /\
  (forall df : DataFrame, exists s : Summary, overall_statistics df = Ok s) /\
  (forall (week : Z -> Z) (now : datetime) (df : DataFrame) (month : string) (year : Z),
     generate_monthly_report week now df month year <> Raise ZeroDivisionError).
Proof.
  split; [|split].
  - intros cols. eexists. split; [reflexivity|]. split; reflexivity.
  - apply overall_statistics_ok.
  - intros week now df month year. unfold generate_monthly_report. cbn zeta.
    repeat (apply bind_no_zero_division;
            [first [ apply require_column_no_zero_division
                   | apply ok_no_zero_division, overall_statistics_ok
                   | apply ok_no_zero_division, regional_statistics_ok
                   | apply idxmin_no_zero_division
                   | apply idxmax_no_zero_division
                   | apply trend_analysis_no_zero_division ]
            | intros ? _ ]).
    discriminate.
Qed.

(** *** The clock *)

(** A report differs from the report of another run only by its time
    stamp. *)
Lemma generate_monthly_report_clock
  (week : Z -> Z) (now1 now2 : datetime) (df : DataFrame) (month : string) (year : Z) :
  generate_monthly_report week now2 df month year =
  (let* r := generate_monthly_report week now1 df month year in
   Ok (with_generated_date (strftime now2) r)).
Proof.
  unfold generate_monthly_report. cbn zeta.
  repeat match goal with
  | |- context [Py.bind ?r _] =>
      lazymatch r with
      | Py.bind _ _ => fail
      | _ => destruct r; cbn [Py.bind]; [|reflexivity]
      end
  end.
  reflexivity.
Qed.

(** C9, as the code has it.  The report of a batch is the same in
    every run except for [generated_date], which is the time of the
    run to the second: the report of one run is the report of any
    other with its own time stamp put in, so two runs in the same
    second give equal reports; and the risk level of a record is
    computed from its text and the lexicons alone. *)
Theorem report_deterministic_up_to_clock :
  (forall (week : Z -> Z) (now1 now2 : datetime) (df : DataFrame) (month : string) (year : Z),
     generate_monthly_report week now2 df month year =
     (let* r := generate_monthly_report week now1 df month year in
      Ok (with_generated_date (strftime now2) r))) /\
  (forall (week : Z -> Z) (now : datetime) (df : DataFrame) (month : string) (year : Z)
          (r : Report),
     generate_monthly_report week now df month year = Ok r ->
     generated_date r = strftime now) /\
  (forall (week : Z -> Z) (now1 now2 : datetime) (df : DataFrame) (month : string) (year : Z),
     strftime now1 = strftime now2 ->
     generate_monthly_report week now1 df month year =
     generate_monthly_report week now2 df month year) /\
  (forall (nltk : TextPreprocessor.nlp) (text : string),
     TextPreprocessor.a_risk_level (TextPreprocessor.analyze_sentiment nltk text) =
     TextPreprocessor._calculate_risk_level
       (TextPreprocessor.compound (TextPreprocessor.polarity_scores nltk text))
       (TextPreprocessor.conflict_intensity text)).
Proof.
  split; [|split; [|split]].
  - apply generate_monthly_report_clock.
  - intros week now df month year r H.
    pose proof (generate_monthly_report_clock week now now df month year) as E.
    rewrite H in E. simpl in E. inversion E as [E']. now rewrite E'.
  - intros week now1 now2 df month year H.
    transitivity (let* r := generate_monthly_report week now2 df month year in
                  Ok (with_generated_date (strftime now2) r)).
    + rewrite <- H. apply (generate_monthly_report_clock week now2 now1).
    + symmetry. apply (generate_monthly_report_clock week now2 now2).
  - reflexivity.
Qed.

(** Two readings of the clock within one second give the same report
    of [undated_batch]. *)
Lemma report_deterministic_up_to_clock_witness :
  generate_monthly_report (fun d => d / 7)%Z (clock_reading 7 0) undated_batch "June" 2024 =
  generate_monthly_report (fun d => d / 7)%Z (clock_reading 7 250) undated_batch "June" 2024.
Proof.
  apply (proj1 (proj2 (proj2 report_deterministic_up_to_clock))). reflexivity.
Defined.

(** C9, as stated, fails.  Two runs over [undated_batch] one second
    apart return reports that are not equal (they differ in
    [generated_date]), whatever the calendar. *)
Lemma report_changes_with_clock :
  ~ exists week : Z -> Z,
      generate_monthly_report week (clock_reading 7 0) undated_batch "June" 2024 =
      generate_monthly_report week (clock_reading 8 0) undated_batch "June" 2024.
Proof.
  intros [week H]. vm_compute in H. discriminate H.
Qed.

(** Both runs of [report_changes_with_clock] return a report. *)
Lemma report_of_undated_batch (week : Z -> Z) (second : nat) :
  exists r : Report,
    generate_monthly_report week (clock_reading second 0) undated_batch "June" 2024 = Ok r /\
    total_tweets_analyzed (summary r) = 3%nat /\
    top_high_risk_regions (key_findings r) = ["Nairobi"; "Mombasa"] /\
    trends r = None.
Proof.
  eexists. split; [|split; [|split]].
  - unfold generate_monthly_report. vm_compute Py.bind. reflexivity.
  - reflexivity.
  - vm_compute. reflexivity.
  - reflexivity.
Qed.

End ReportProofs.

(** ** The passes of [clean_text] one by one *)

Module StripProofs.
Import Py TextPreprocessor Notions IntensityProofs NormalizeProofs.

(** *** Characters *)

Lemma lower_char_not_capital (c : ascii) : is_capital (lower_char c) = false.
Proof. destruct c as [[] [] [] [] [] [] [] []]; vm_compute; reflexivity. Qed.

Lemma lower_char_idempotent (c : ascii) : lower_char (lower_char c) = lower_char c.
Proof. destruct c as [[] [] [] [] [] [] [] []]; vm_compute; reflexivity. Qed.

Lemma space_is_no_capital (c : ascii) : is_space c = true -> is_capital c = false.
Proof. destruct c as [[] [] [] [] [] [] [] []]; vm_compute; congruence. Qed.

Lemma all_chars_and (p q : ascii -> bool) (s : string) :
  all_chars (fun c => p c && q c) s = all_chars p s && all_chars q s.
Proof.
  induction s as [|c s IH]; simpl; [reflexivity|]. rewrite IH.
  destruct (p c), (q c), (all_chars p s), (all_chars q s); reflexivity.
Qed.

Lemma all_chars_map (f : ascii -> ascii) (p : ascii -> bool) (s : string) :
  (forall c, p (f c) = true) -> all_chars p (map_chars f s) = true.
Proof.
  intros H. induction s as [|c s IH]; simpl; [reflexivity|]. now rewrite H, IH.
Qed.

Lemma all_chars_map_from (f : ascii -> ascii) (p q : ascii -> bool) (s : string) :
  (forall c, p c = true -> q (f c) = true) ->
  all_chars p s = true -> all_chars q (map_chars f s) = true.
Proof.
  intros H. induction s as [|c s IH]; simpl; [reflexivity|].
  rewrite !andb_true_iff. intros [Hc Hs]. auto.
Qed.

(** *** Passes that only delete characters *)

Lemma all_chars_remove (r p : ascii -> bool) (s : string) :
  all_chars p s = true ->
  all_chars (fun c => p c && negb (r c)) (remove_chars r s) = true.
Proof.
  induction s as [|c s IH]; simpl; [reflexivity|].
  rewrite andb_true_iff. intros [Hc Hs].
  destruct (r c) eqn:E; simpl; [now apply IH|]. now rewrite Hc, E, IH.
Qed.

Lemma all_chars_sub_url (p : ascii -> bool) (s : string) :
  forall b, all_chars p s = true -> all_chars p (sub_url_from b s) = true.
Proof.
  induction s as [|c s IH]; intros b; simpl; [reflexivity|].
  rewrite andb_true_iff. intros [Hc Hs].
  destruct b.
  - destruct (is_space c); simpl; [now rewrite Hc, IH | now apply IH].
  - destruct (url_matches_here (String c s)); simpl; [now apply IH | now rewrite Hc, IH].
Qed.

Lemma all_chars_sub_mention (p : ascii -> bool) (s : string) :
  forall b, all_chars p s = true -> all_chars p (sub_mention_from b s) = true.
Proof.
  induction s as [|c s IH]; intros b; [reflexivity|].
  cbn [all_chars]. rewrite andb_true_iff. intros [Hc Hs].
  cbn [sub_mention_from].
  destruct (b && is_word c); [now apply IH|].
  destruct (mention_matches_here (String c s)); [now apply IH|].
  cbn [all_chars]. now rewrite Hc, IH.
Qed.

Lemma all_chars_absent (p : ascii -> bool) (c : ascii) (s : string) :
  all_chars p s = true -> p c = false -> str_in (String c "") s = false.
Proof.
  intros Hs Hc. destruct (str_in (String c "") s) eqn:E; [|reflexivity].
  apply str_in_true in E as (before & after & ->).
  rewrite all_chars_append in Hs. apply andb_true_iff in Hs as [_ Hs].
  simpl in Hs. rewrite Hc in Hs. discriminate.
Qed.

(** X1.  After the passes of [clean_text] from [text.lower()] to the
    removal of numbers, every character of the text is a word character
    or white space, and none is a digit or a capital letter; the text
    holds no '#' and no '@'. *)
Theorem strip_alphabet (text : string) :
  all_chars is_stripped (strip text) = true /\
  str_in "#" (strip text) = false /\
  str_in "@" (strip text) = false.
Proof.
  assert (H : all_chars is_stripped (strip text) = true).
  { unfold strip, sub_digits, sub_special, sub_hash, sub_mention, sub_url, lower.
    set (s4 := remove_chars (Ascii.eqb "#") _).
    assert (H4 : all_chars (fun c => negb (is_capital c)) s4 = true).
    { unfold s4.
      eapply all_chars_weaken;
        [|apply (all_chars_remove (Ascii.eqb "#") (fun c => negb (is_capital c)))].
      - intros c Hc. now apply andb_true_iff in Hc as [Hc _].
      - apply all_chars_sub_mention, all_chars_sub_url, all_chars_map.
        intros c. now rewrite lower_char_not_capital. }
    eapply all_chars_weaken;
      [|apply (all_chars_remove is_digit
                 (fun c => (is_word c || is_space c) && negb (is_capital c)))].
    - intros c Hc. unfold is_stripped.
      apply andb_true_iff in Hc as [Hc Hd]. apply andb_true_iff in Hc as [Hw Hu].
      now rewrite Hw, Hd, Hu.
    - eapply all_chars_map_from; [|exact H4].
      intros c Hc. cbv beta in Hc.
      destruct (is_word c || is_space c) eqn:E; [now rewrite E, Hc|].
      reflexivity. }
  split; [exact H|]. split; eapply all_chars_absent; try exact H; reflexivity.
Qed.

(** *** Passes applied twice *)

Lemma map_chars_idempotent (f : ascii -> ascii) (s : string) :
  (forall c, f (f c) = f c) -> map_chars f (map_chars f s) = map_chars f s.
Proof.
  intros H. induction s as [|c s IH]; simpl; [reflexivity|]. now rewrite H, IH.
Qed.

Lemma remove_chars_idempotent (r : ascii -> bool) (s : string) :
  remove_chars r (remove_chars r s) = remove_chars r s.
Proof.
  induction s as [|c s IH]; simpl; [reflexivity|].
  destruct (r c) eqn:E; simpl; [exact IH|]. now rewrite E, IH.
Qed.

(** What follows a removed URL is white space or the end. *)
Lemma sub_url_after_match (s : string) :
  head_is (fun c => negb (is_space c)) (sub_url_from true s) = false.
Proof.
  induction s as [|c s IH]; simpl; [reflexivity|].
  destruct (is_space c) eqn:E; simpl; [now rewrite E | exact IH].
Qed.

Lemma literal_after_sub_url (lit : string) :
  all_chars (fun c => negb (is_space c)) lit = true ->
  forall s : string,
    starts_with_then_nonspace lit (sub_url_from false s) = true ->
    starts_with_then_nonspace lit s = true.
Proof.
  induction lit as [|a lit IH]; intros Hlit s.
  - destruct s as [|c s]; [simpl; discriminate|].
    cbn [sub_url_from]. destruct (url_matches_here (String c s)).
    + pose proof (sub_url_after_match s) as H.
      destruct (sub_url_from true s); simpl in *; congruence.
    + simpl. trivial.
  - cbn [all_chars] in Hlit. apply andb_true_iff in Hlit as [Ha Hlit].
    destruct s as [|c s]; [simpl; discriminate|].
    cbn [sub_url_from]. destruct (url_matches_here (String c s)).
    + pose proof (sub_url_after_match s) as H.
      destruct (sub_url_from true s) as [|c' s']; simpl; [discriminate|].
      simpl in H. rewrite andb_true_iff. intros [Hac _].
      apply Ascii.eqb_eq in Hac. subst c'.
      rewrite H in Ha. discriminate.
    + simpl. rewrite !andb_true_iff. intros [Hac Hrest]. split; [exact Hac|].
      now apply IH.
Qed.

Lemma no_new_url (s : string) :
  url_matches_here (sub_url_from false s) = true -> url_matches_here s = true.
Proof.
  unfold url_matches_here. rewrite !orb_true_iff.
  intros [[H|H]|H]; [left; left | left; right | right];
    (apply literal_after_sub_url; [reflexivity | exact H]).
Qed.

Lemma sub_url_idempotent_from (s : string) :
  forall b, sub_url_from false (sub_url_from b s) = sub_url_from b s.
Proof.
  induction s as [|c s IH]; intros b; [destruct b; reflexivity|].
  destruct b.
  - cbn [sub_url_from]. destruct (is_space c) eqn:E; [|apply IH].
    cbn [sub_url_from].
    assert (U : url_matches_here (String c (sub_url_from false s)) = false).
    { unfold url_matches_here. simpl.
      destruct c as [[] [] [] [] [] [] [] []]; try reflexivity; discriminate E. }
    now rewrite U, IH.
  - destruct (url_matches_here (String c s)) eqn:E.
    + cbn [sub_url_from]. rewrite E. apply IH.
    + assert (R : sub_url_from false (String c s) = String c (sub_url_from false s))
        by (cbn [sub_url_from]; now rewrite E).
      rewrite R. cbn [sub_url_from].
      destruct (url_matches_here (String c (sub_url_from false s))) eqn:E'.
      * rewrite <- R in E'. apply no_new_url in E'. congruence.
      * now rewrite IH.
Qed.

(** What follows a removed mention is no word character. *)
Lemma sub_mention_after_match (s : string) :
  head_is is_word (sub_mention_from true s) = false.
Proof.
  induction s as [|c s IH]; [reflexivity|].
  cbn [sub_mention_from andb].
  destruct (is_word c) eqn:E; [exact IH|].
  destruct (mention_matches_here (String c s)); [exact IH|].
  simpl. exact E.
Qed.

Lemma word_after_sub_mention (s : string) :
  head_is is_word (sub_mention_from false s) = true -> head_is is_word s = true.
Proof.
  destruct s as [|c s]; [discriminate|].
  cbn [sub_mention_from andb].
  destruct (mention_matches_here (String c s)).
  - now rewrite sub_mention_after_match.
  - simpl. trivial.
Qed.

Lemma mention_matches_here_head (c : ascii) (s : string) :
  mention_matches_here (String c s) = Ascii.eqb c "@" && head_is is_word s.
Proof.
  unfold mention_matches_here.
  destruct (Ascii.eqb c "@") eqn:E.
  - apply Ascii.eqb_eq in E. subst c. destruct s; reflexivity.
  - destruct c as [[] [] [] [] [] [] [] []]; try reflexivity; discriminate E.
Qed.

Lemma sub_mention_idempotent_from (s : string) :
  forall b, sub_mention_from false (sub_mention_from b s) = sub_mention_from b s.
Proof.
  induction s as [|c s IH]; intros b; [destruct b; reflexivity|].
  cbn [sub_mention_from].
  destruct (b && is_word c); [apply IH|].
  destruct (mention_matches_here (String c s)) eqn:E; [apply IH|].
  cbn [sub_mention_from andb].
  destruct (mention_matches_here (String c (sub_mention_from false s))) eqn:E'.
  - rewrite mention_matches_here_head in E, E'.
    apply andb_true_iff in E' as [Hat Hw]. apply word_after_sub_mention in Hw.
    rewrite Hat, Hw in E. discriminate.
  - now rewrite IH.
Qed.

(** X2.  Each pass of [clean_text] before the tokenizer gives the same
    text when it is applied a second time: lowercasing, the removal of
    URLs, of mentions, of '#', of special characters and of numbers.
    Their composition does not: the removal of numbers can complete a
    URL. *)
Theorem every_pass_is_idempotent :
  (forall s : string,
     lower (lower s) = lower s /\
     sub_url (sub_url s) = sub_url s /\
     sub_mention (sub_mention s) = sub_mention s /\
     sub_hash (sub_hash s) = sub_hash s /\
     sub_special (sub_special s) = sub_special s /\
     sub_digits (sub_digits s) = sub_digits s) /\
  strip (strip "ht1tpfoo") <> strip "ht1tpfoo".
Proof.
  split; [|vm_compute; discriminate].
  intros s. repeat split.
  - apply map_chars_idempotent, lower_char_idempotent.
  - apply (sub_url_idempotent_from s false).
  - apply (sub_mention_idempotent_from s false).
  - apply remove_chars_idempotent.
  - apply map_chars_idempotent. intros c.
    destruct (is_word c || is_space c) eqn:E; [now rewrite E | reflexivity].
  - apply remove_chars_idempotent.
Qed.

End StripProofs.

(** ** Scores of a text *)

Module ScoringProofs.
Import Py PyFacts TextPreprocessor Notions IntensityProofs RiskLevelProofs.
Local Open Scope Q_scope.

Lemma filter_length_le {A} (f g : A -> bool) (l : list A) :
  (forall x, f x = true -> g x = true) ->
  (List.length (List.filter f l) <= List.length (List.filter g l))%nat.
Proof.
  intros H. induction l as [|x l IH]; simpl; [lia|].
  destruct (f x) eqn:E.
  - rewrite (H x E). simpl. lia.
  - destruct (g x); simpl; lia.
Qed.

Lemma conflict_count_le_10 (text : string) : (conflict_count text <= 10)%nat.
Proof.
  unfold conflict_count.
  apply (Nat.le_trans _ _ _ (List.filter_length_le _ conflict_words)).
  reflexivity.
Qed.

Lemma of_count (n m : nat) :
  (n <= m)%nat <-> inject_Z (Z.of_nat n) / 5 <= inject_Z (Z.of_nat m) / 5.
Proof.
  unfold Qle. simpl. lia.
Qed.

Lemma share_le_1 (n : nat) : (n <= 5)%nat <-> inject_Z (Z.of_nat n) / 5 <= 1.
Proof. unfold Qle. simpl. lia. Qed.

Lemma share_nonneg (n : nat) : 0 <= inject_Z (Z.of_nat n) / 5.
Proof. unfold Qle. simpl. lia. Qed.

Lemma share_le_two_fifths (n : nat) : (n <= 2)%nat -> inject_Z (Z.of_nat n) / 5 <= 0.4.
Proof. unfold Qle. simpl. lia. Qed.

Lemma conflict_intensity_of_count (text : string) :
  conflict_intensity text == inject_Z (Z.of_nat (Nat.min (conflict_count text) 5)) / 5.
Proof.
  unfold conflict_intensity, py_min.
  destruct (Nat.le_gt_cases (conflict_count text) 5) as [H|H].
  - rewrite Nat.min_l by exact H.
    assert (E : lt 1 (inject_Z (Z.of_nat (conflict_count text)) / 5) = false).
    { apply lt_false. now apply share_le_1. }
    now rewrite E.
  - rewrite Nat.min_r by lia.
    assert (E : lt 1 (inject_Z (Z.of_nat (conflict_count text)) / 5) = true).
    { apply lt_true. apply Qnot_le_lt. intros Hle. apply share_le_1 in Hle. lia. }
    rewrite E. reflexivity.
Qed.

Lemma conflict_intensity_bounds (text : string) : 0 <= conflict_intensity text <= 1.
Proof.
  rewrite conflict_intensity_of_count. split.
  - apply share_nonneg.
  - apply share_le_1. lia.
Qed.

(** X3.  The conflict intensity of a text is one of 0, 1/5, 2/5, 3/5,
    4/5 and 1: it is min(k, 5)/5 for the number k of conflict words
    found, of which there are at most ten, and so lies between 0 and
    1. *)
Theorem conflict_intensity_range (text : string) :
  (conflict_count text <= 10)%nat /\
  conflict_intensity text == inject_Z (Z.of_nat (Nat.min (conflict_count text) 5)) / 5 /\
  0 <= conflict_intensity text <= 1.
Proof.
  split; [apply conflict_count_le_10|].
  split; [apply conflict_intensity_of_count|].
  apply conflict_intensity_bounds.
Qed.

Lemma map_chars_append (f : ascii -> ascii) (s t : string) :
  map_chars f (s ++ t)%string = (map_chars f s ++ map_chars f t)%string.
Proof.
  induction s as [|c s IH]; simpl; [reflexivity|]. now rewrite IH.
Qed.

Lemma string_append_assoc (a b c : string) :
  ((a ++ b) ++ c)%string = (a ++ (b ++ c))%string.
Proof.
  induction a as [|x a IH]; [reflexivity|].
  change (String x ((a ++ b) ++ c)%string = String x (a ++ (b ++ c))%string).
  now f_equal.
Qed.

Lemma occurs_in_context (w t before after : string) :
  occurs_in w t -> occurs_in w (before ++ t ++ after)%string.
Proof.
  intros (b & a & ->). exists (before ++ b)%string, (a ++ after)%string.
  now rewrite !string_append_assoc.
Qed.

(** X4.  Text added before or after a text never lowers its conflict
    intensity. *)
Theorem conflict_intensity_grows_with_text (before text after : string) :
  (conflict_count text <= conflict_count (before ++ text ++ after)%string)%nat /\
  conflict_intensity text <= conflict_intensity (before ++ text ++ after)%string.
Proof.
  assert (H : (conflict_count text <= conflict_count (before ++ text ++ after)%string)%nat).
  { unfold conflict_count. apply filter_length_le. intros w Hw.
    apply str_in_true. apply str_in_true in Hw.
    unfold lower. rewrite !map_chars_append. now apply occurs_in_context. }
  split; [exact H|].
  rewrite !conflict_intensity_of_count. apply of_count. lia.
Qed.

Lemma level_at_least (x : Q) :
  (0.5 < x -> (2 <= rank (level_of_score x))%nat) /\
  (x <= 0.5 -> (rank (level_of_score x) <= 1)%nat) /\
  (x <= 0.7 -> level_of_score x <> Critical).
Proof.
  destruct (level_of_score_bands x) as (H7 & H5 & H3 & H0).
  destruct (level_of_score x) eqn:E; simpl; repeat split; intros H; try lia;
    try discriminate;
    try (assert (x <= 0.3) by (now apply H0); lra);
    try (assert (0.3 < x /\ x <= 0.5) by (now apply H3); lra);
    try (assert (0.5 < x /\ x <= 0.7) by (now apply H5); lra);
    try (assert (0.7 < x) by (now apply H7); lra).
Qed.

(** X5.  In [analyze_sentiment], with a compound score between -1 and
    1: a text without conflict words is Low or Medium, a text with at
    most two conflict words is not Critical, and a text of neutral
    compound 0 is not Critical; a text with five or more conflict words
    is High or Critical whatever its compound score. *)
Theorem risk_level_needs_conflict_words (nltk : nlp) (text : string) :
  let c := compound (polarity_scores nltk text) in
  let level := a_risk_level (analyze_sentiment nltk text) in
  ((5 <= conflict_count text)%nat -> (2 <= rank level)%nat) /\
  (-1 <= c <= 1 ->
   (conflict_count text = 0%nat -> (rank level <= 1)%nat) /\
   ((conflict_count text <= 2)%nat -> level <> Critical) /\
   (c == 0 -> level <> Critical)).
Proof.
  intros c level.
  assert (L : level = level_of_score (risk_score c (conflict_intensity text)))
    by reflexivity.
  pose proof (conflict_intensity_of_count text) as Hci.
  pose proof (conflict_intensity_bounds text) as (Hlo & Hhi).
  pose proof (Qabs_nonneg c) as Hab.
  rewrite L. unfold risk_score. split.
  - intros H. apply level_at_least.
    rewrite Nat.min_r in Hci by exact H.
    assert (E5 : inject_Z (Z.of_nat 5) / 5 == 1) by reflexivity.
    rewrite E5 in Hci. lra.
  - intros [Hc1 Hc2].
    assert (Habs : Qabs c <= 1) by (apply Qabs_Qle_condition; split; lra).
    split; [|split].
    + intros H. apply level_at_least. rewrite H in Hci.
      assert (E0 : inject_Z (Z.of_nat (Nat.min 0 5)) / 5 == 0) by reflexivity.
      rewrite E0 in Hci. lra.
    + intros H. apply level_at_least.
      assert (H2 : (Nat.min (conflict_count text) 5 <= 2)%nat) by lia.
      apply share_le_two_fifths in H2. rewrite <- Hci in H2. lra.
    + intros H. apply level_at_least.
      assert (Hz : Qabs c == 0) by (rewrite H; reflexivity). lra.
Qed.

(** With the sample lexicon every compound score is 0: "a quiet day" is
    Low, and no text, "war riot clash" included, is Critical. *)
Lemma risk_level_needs_conflict_words_witness :
  (rank (a_risk_level (analyze_sentiment sample_nlp "a quiet day")) <= 1)%nat /\
  a_risk_level (analyze_sentiment sample_nlp "war riot clash") <> Critical.
Proof.
  split.
  - apply (proj2 (risk_level_needs_conflict_words sample_nlp "a quiet day"));
      [split; discriminate | reflexivity].
  - apply (proj2 (risk_level_needs_conflict_words sample_nlp "war riot clash"));
      [split; discriminate | reflexivity].
Defined.

(** X6.  The sentiment label is Positive from 0.05 upward, Negative
    from -0.05 downward and Neutral strictly between; the label of the
    opposite score is the opposite label. *)
Theorem sentiment_label_bands (x : Q) :
  (_get_sentiment_label x = Positive <-> 0.05 <= x) /\
  (_get_sentiment_label x = Negative <-> x <= -0.05) /\
  (_get_sentiment_label x = Neutral <-> -0.05 < x /\ x < 0.05) /\
  _get_sentiment_label (- x) = mirror (_get_sentiment_label x).
Proof.
  assert (B : forall y,
    (_get_sentiment_label y = Positive <-> 0.05 <= y) /\
    (_get_sentiment_label y = Negative <-> y <= -0.05) /\
    (_get_sentiment_label y = Neutral <-> -0.05 < y /\ y < 0.05)).
  { intros y. unfold _get_sentiment_label, ge, le.
    destruct (Qle_bool 0.05 y) eqn:E1;
      [apply Qle_bool_iff in E1 | apply Qle_bool_false in E1];
      (destruct (Qle_bool y (-0.05)) eqn:E2;
       [apply Qle_bool_iff in E2 | apply Qle_bool_false in E2]);
      repeat split; intros; try discriminate; try lra;
      repeat match goal with H : _ /\ _ |- _ => destruct H end; try lra. }
  destruct (B x) as (P & N & U). split; [exact P|]. split; [exact N|]. split; [exact U|].
  destruct (B (- x)) as (P' & N' & U').
  destruct (_get_sentiment_label x) eqn:E; simpl.
  - apply N'. assert (0.05 <= x) by (now apply P). lra.
  - apply P'. assert (x <= -0.05) by (now apply N). lra.
  - apply U'. assert (-0.05 < x /\ x < 0.05) by (now apply U). lra.
Qed.

End ScoringProofs.

(** ** The features of the classifier *)

Module FeatureSelectionProofs.
Import Py ConflictPredictor Notions IntensityProofs.

Lemma is_column_true (columns : list string) (col : string) :
  is_column columns col = true <-> List.In col columns.
Proof.
  unfold is_column. rewrite List.existsb_exists. split.
  - intros (x & Hx & E). apply String.eqb_eq in E. now subst x.
  - intros H. exists col. split; [exact H | apply String.eqb_refl].
Qed.

Lemma filter_in_columns (f : string -> bool) (columns : list string) :
  List.filter (is_column columns) (List.filter f columns) = List.filter f columns.
Proof.
  apply NormalizeProofs.filter_all. apply List.Forall_forall.
  intros col H. apply List.filter_In in H as [H _]. now apply is_column_true.
Qed.

Lemma select_features_parts (columns : list string) :
  select_features columns =
  List.filter (is_column columns) core_features
  ++ List.filter (startswith "region_") columns
  ++ List.filter (fun col => str_in "lag" col || str_in "rolling" col) columns.
Proof.
  unfold select_features. cbn zeta.
  now rewrite !List.filter_app, !filter_in_columns, <- app_assoc.
Qed.

(** X7.  [prepare_features] selects, in this order, the core features
    that are columns of the table, the columns whose name starts with
    "region_" and the columns whose name contains "lag" or "rolling".
    So a name is selected exactly when it is a column and is a core
    feature or has such a name, and the default target "conflict_risk"
    is never a feature.  A target that is no column is a KeyError;
    missing features are none. *)
Theorem prepare_features_selects_existing_columns (columns : list string) :
  select_features columns =
    List.filter (is_column columns) core_features
    ++ List.filter (startswith "region_") columns
    ++ List.filter (fun col => str_in "lag" col || str_in "rolling" col) columns /\
  (forall col : string,
     List.In col (select_features columns) <->
     List.In col columns /\
     (List.In col core_features \/
      (exists rest : string, col = ("region_" ++ rest)%string) \/
      occurs_in "lag" col \/ occurs_in "rolling" col)) /\
  ~ List.In "conflict_risk" (select_features columns) /\
  (forall target : string,
     List.In target columns ->
     prepare_features columns target = Ok (select_features columns)) /\
  (forall target : string,
     ~ List.In target columns ->
     prepare_features columns target = Raise (KeyError target)).
Proof.
  assert (M : forall col : string,
     List.In col (select_features columns) <->
     List.In col columns /\
     (List.In col core_features \/
      (exists rest : string, col = ("region_" ++ rest)%string) \/
      occurs_in "lag" col \/ occurs_in "rolling" col)).
  { intros col. rewrite select_features_parts, !List.in_app_iff, !List.filter_In.
    unfold startswith. rewrite is_column_true, prefix_true, orb_true_iff, !str_in_true.
    tauto. }
  split; [apply select_features_parts|]. split; [exact M|]. split; [|split].
  - intros H. apply M in H as [_ [H|[[rest H]|[H|H]]]].
    + simpl in H. intuition discriminate.
    + discriminate H.
    + apply str_in_true in H. vm_compute in H. discriminate.
    + apply str_in_true in H. vm_compute in H. discriminate.
  - intros target H. unfold prepare_features.
    apply is_column_true in H. now rewrite H.
  - intros target H. unfold prepare_features.
    destruct (is_column columns target) eqn:E; [|reflexivity].
    apply is_column_true in E. contradiction.
Qed.

(** Of the columns text, vader_compound, region, region_Nairobi,
    vader_compound_lag_1 and conflict_risk, three are features. *)
Lemma prepare_features_selects_existing_columns_witness :
  prepare_features
    ["text"; "vader_compound"; "region"; "region_Nairobi"; "vader_compound_lag_1";
     "conflict_risk"] "conflict_risk"
  = Ok ["vader_compound"; "region_Nairobi"; "vader_compound_lag_1"] /\
  prepare_features ["text"; "vader_compound"] "conflict_risk"
  = Raise (KeyError "conflict_risk").
Proof.
  split.
  - change (Ok ["vader_compound"; "region_Nairobi"; "vader_compound_lag_1"])
      with (Ok (select_features
                  ["text"; "vader_compound"; "region"; "region_Nairobi";
                   "vader_compound_lag_1"; "conflict_risk"])).
    apply (proj1 (proj2 (proj2 (proj2 (prepare_features_selects_existing_columns _))))).
    simpl. tauto.
  - apply (proj2 (proj2 (proj2 (proj2 (prepare_features_selects_existing_columns _))))).
    simpl. intuition discriminate.
Defined.

End FeatureSelectionProofs.

(** ** Saving, loading and failed training *)

Module PersistenceProofs.
Import Py ConflictPredictor PredictorProofs.

Section with_sklearn.
Context (sk : sklearn).

(** X8.  [load_model] after [save_model] on the same path gives the
    loading predictor the model, the scaler and the feature importance
    of the saved one, so that it predicts as the saved one does (and
    refuses as it does, when the saved one was untrained); its own
    model type and table of estimators are not replaced.  Saving
    leaves every other file as it was, and loading from a path without
    a file raises and changes nothing. *)
Theorem save_then_load_restores
  (self other : predictor sk) (filepath : string) (fs : gmap string (artifact sk)) :
  let loaded := fst (load_model sk other filepath (save_model sk self filepath fs)) in
  snd (load_model sk other filepath (save_model sk self filepath fs)) = Ok tt /\
  model sk loaded = model sk self /\
  scaler_ sk loaded = scaler_ sk self /\
  feature_importance sk loaded = feature_importance sk self /\
  model_type sk loaded = model_type sk other /\
  models sk loaded = models sk other /\
  (forall X : frame sk, predict sk loaded X = predict sk self X) /\
  (forall path : string, path <> filepath ->
     save_model sk self filepath fs !! path = fs !! path) /\
  (fs !! filepath = None ->
     load_model sk other filepath fs = (other, Raise (FileNotFoundError filepath))).
Proof.
  unfold load_model, save_model. rewrite lookup_insert_eq. cbn.
  repeat split.
  - intros path H. now rewrite lookup_insert_ne.
  - intros H. now rewrite H.
Qed.

Lemma train_unknown_type (self : predictor sk) (X_train : frame sk) (y_train : labels sk)
  (fitted_scaler : scaler sk) (X_scaled : frame sk) :
  fit_transform sk (scaler_ sk self) X_train = Ok (fitted_scaler, X_scaled) ->
  models sk self !! model_type sk self = None ->
  train sk self X_train y_train =
    (set_scaler sk self fitted_scaler, Raise (KeyError (model_type sk self))).
Proof.
  intros Hfit Hm. unfold train. rewrite Hfit.
  cbn [models set_scaler model_type]. now rewrite Hm.
Qed.


(** A new predictor of an unknown type, such as "ensemble", cannot be
    trained and stays untrained. *)
Lemma unknown_model_type (model_type : string) (X_train : frame sk) (y_train : labels sk)
  (fitted_scaler : scaler sk) (X_scaled : frame sk) :
  fit_transform sk (StandardScaler sk) X_train = Ok (fitted_scaler, X_scaled) ->
  ~ List.In model_type ["random_forest"; "gradient_boosting"; "xgboost"; "lightgbm"] ->
  snd (train sk (__init__ sk model_type) X_train y_train) = Raise (KeyError model_type) /\
  forall X : frame sk,
    predict sk (fst (train sk (__init__ sk model_type) X_train y_train)) X
    = Raise ModelNotTrained.
Proof.
  intros Hfit Hnot.
  assert (Hm : models sk (__init__ sk model_type) !! model_type = None).
  { cbn [models __init__]. simpl in Hnot.
    rewrite !lookup_insert_ne by (intros E; apply Hnot; rewrite E; tauto).
    apply lookup_empty. }
  rewrite (train_unknown_type (__init__ sk model_type) X_train y_train
             fitted_scaler X_scaled Hfit Hm).
  split; reflexivity.
Qed.

End with_sklearn.

(** Saved as "model.pkl", a predictor trained on [3; 5] is restored
    into a new predictor, which then labels [2; 7] as the trained one
    does. *)
Lemma save_then_load_restores_witness :
  predict sample_sklearn
    (fst (load_model sample_sklearn (__init__ sample_sklearn "lightgbm") "model.pkl"
            (save_model sample_sklearn
               (fst (train sample_sklearn (__init__ sample_sklearn "xgboost")
                       [3%Q; 5%Q] [false; true]))
               "model.pkl" ∅)))
    [2%Q; 7%Q]
  = Ok ([false; true], [0%Q; 1%Q]).
Proof.
  rewrite (proj1 (proj2 (proj2 (proj2 (proj2 (proj2 (proj2
             (save_then_load_restores sample_sklearn _ _ "model.pkl" ∅)))))))).
  vm_compute. reflexivity.
Defined.


End PersistenceProofs.

(** ** Keys and groups *)

Module GroupingProofs.
Import Py PyFacts DashboardGenerator Notions.

Section keys.
Context {K : Type} (cmp : K -> K -> comparison).
Hypothesis cmp_eq : forall a b : K, cmp a b = Eq <-> a = b.
Hypothesis cmp_antisym : forall a b : K, cmp a b = CompOpp (cmp b a).
Hypothesis cmp_trans : forall a b c : K, cmp a b = Lt -> cmp b c = Lt -> cmp a c = Lt.

Lemma same_key_true (a b : K) : same_key cmp a b = true <-> a = b.
Proof.
  unfold same_key. rewrite <- cmp_eq. destruct (cmp a b); split; congruence.
Qed.

Lemma insert_key_In_iff (k x : K) (l : list K) :
  List.In k (insert_key cmp x l) <-> k = x \/ List.In k l.
Proof.
  induction l as [|y l IH]; simpl; [intuition|].
  destruct (cmp x y) eqn:E; simpl.
  - apply cmp_eq in E. subst y. intuition.
  - intuition.
  - rewrite IH. intuition.
Qed.

Lemma group_keys_In_iff (k : K) (ks : list K) :
  List.In k (group_keys cmp ks) <-> List.In k ks.
Proof.
  unfold group_keys. induction ks as [|x ks IH]; simpl; [tauto|].
  rewrite insert_key_In_iff, IH. intuition.
Qed.

Lemma insert_key_ascending (x : K) (l : list K) :
  ascending cmp l -> ascending cmp (insert_key cmp x l).
Proof.
  unfold ascending. induction 1 as [|y l Hl IH Hy]; simpl.
  - constructor; constructor.
  - destruct (cmp x y) eqn:E.
    + now constructor.
    + constructor; [now constructor|]. constructor; [exact E|].
      eapply List.Forall_impl; [|exact Hy]. intros z Hz. now apply (cmp_trans x y z).
    + constructor; [exact IH|]. apply List.Forall_forall. intros z Hz.
      apply insert_key_In_iff in Hz as [->|Hz].
      * rewrite cmp_antisym, E. reflexivity.
      * rewrite List.Forall_forall in Hy. now apply Hy.
Qed.

Lemma group_keys_ascending (ks : list K) : ascending cmp (group_keys cmp ks).
Proof.
  unfold group_keys. induction ks as [|x ks IH]; simpl; [constructor|].
  now apply insert_key_ascending.
Qed.

Lemma cmp_irrefl (a : K) : cmp a a <> Lt.
Proof. assert (E : cmp a a = Eq) by now apply cmp_eq. congruence. Qed.

Lemma ascending_NoDup (l : list K) : ascending cmp l -> List.NoDup l.
Proof.
  unfold ascending. induction 1 as [|y l Hl IH Hy]; constructor; [|exact IH].
  intros Hin. rewrite List.Forall_forall in Hy. now apply (cmp_irrefl y), Hy.
Qed.

Lemma group_keys_NoDup (ks : list K) : List.NoDup (group_keys cmp ks).
Proof. apply ascending_NoDup, group_keys_ascending. Qed.


(** *** Every record is in exactly one group *)

Lemma list_sum_zero (keys : list K) : list_sum (List.map (fun _ => 0%nat) keys) = 0%nat.
Proof. induction keys; simpl; auto. Qed.

Lemma list_sum_plus (g h : K -> nat) (keys : list K) :
  list_sum (List.map (fun k => (g k + h k)%nat) keys)
  = (list_sum (List.map g keys) + list_sum (List.map h keys))%nat.
Proof. induction keys as [|k keys IH]; simpl; [reflexivity|]. rewrite IH. lia. Qed.

Lemma one_key_matches (a : K) (keys : list K) :
  List.NoDup keys -> List.In a keys ->
  list_sum (List.map (fun k => if same_key cmp a k then 1%nat else 0%nat) keys) = 1%nat.
Proof.
  induction 1 as [|k keys Hk Hnd IH]; intros Hin; [destruct Hin|].
  simpl. destruct (same_key cmp a k) eqn:E.
  - apply same_key_true in E. subst k.
    assert (Z : list_sum (List.map (fun k => if same_key cmp a k then 1%nat else 0%nat) keys)
                = 0%nat).
    { clear IH Hin Hnd. induction keys as [|k keys IH]; simpl; [reflexivity|].
      destruct (same_key cmp a k) eqn:E'.
      - apply same_key_true in E'. subst k. exfalso. apply Hk. now left.
      - apply IH. intros H. apply Hk. now right. }
    now rewrite Z.
  - destruct Hin as [->|Hin].
    + assert (same_key cmp a a = true) by now apply same_key_true. congruence.
    + now rewrite IH.
Qed.

Lemma groups_partition {A} (f : A -> K) (p : A -> bool) (keys : list K) (l : list A) :
  List.NoDup keys ->
  (forall x, List.In x l -> List.In (f x) keys) ->
  list_sum (List.map (fun k => List.length
              (List.filter p (List.filter (fun x => same_key cmp (f x) k) l))) keys)
  = List.length (List.filter p l).
Proof.
  intros Hnd. induction l as [|x l IH]; intros Hin.
  - simpl. apply list_sum_zero.
  - assert (Hl : forall y, List.In y l -> List.In (f y) keys)
      by (intros y Hy; apply Hin; now right).
    specialize (IH Hl).
    transitivity
      (list_sum (List.map (fun k =>
         ((if same_key cmp (f x) k then (if p x then 1 else 0) else 0)
          + List.length (List.filter p (List.filter (fun y => same_key cmp (f y) k) l)))%nat)
         keys)).
    { f_equal. apply List.map_ext. intros k. simpl.
      destruct (same_key cmp (f x) k); [|reflexivity].
      simpl. destruct (p x); reflexivity. }
    rewrite list_sum_plus, IH. simpl.
    destruct (p x); simpl.
    + rewrite one_key_matches; [reflexivity | exact Hnd | apply Hin; now left].
    + assert (Z : forall ks, list_sum (List.map (fun k : K =>
                     if same_key cmp (f x) k then 0%nat else 0%nat) ks) = 0%nat).
      { induction ks as [|k ks IHk]; simpl; [reflexivity|].
        destruct (same_key cmp (f x) k); exact IHk. }
      now rewrite Z.
Qed.

End keys.

(** *** The orders of regions and of weeks *)

Lemma String_compare_eq (a b : string) : String.compare a b = Eq <-> a = b.
Proof. apply String_as_OT.cmp_eq. Qed.

Lemma String_compare_trans (a b c : string) :
  String.compare a b = Lt -> String.compare b c = Lt -> String.compare a c = Lt.
Proof.
  intros H1 H2. apply String_as_OT.cmp_lt.
  apply String_as_OT.cmp_lt in H1. apply String_as_OT.cmp_lt in H2.
  now apply (String_as_OT.lt_trans a b c).
Qed.

Lemma Z_compare_trans (a b c : Z) :
  Z.compare a b = Lt -> Z.compare b c = Lt -> Z.compare a c = Lt.
Proof. rewrite !Z.compare_lt_iff. lia. Qed.

Lemma same_region (a b : string) : same_key String.compare a b = String.eqb a b.
Proof.
  destruct (String.eqb a b) eqn:E.
  - apply (same_key_true String.compare String_compare_eq). now apply String.eqb_eq.
  - destruct (same_key String.compare a b) eqn:E'; [|reflexivity].
    apply (same_key_true String.compare String_compare_eq) in E'.
    apply String.eqb_neq in E. contradiction.
Qed.

(** The groups of [groupby] by region: the distinct regions in
    ascending order, each with all its records. *)
Lemma groupby_region_groups (l : list Row) :
  groupby String.compare region l =
  List.map (fun k => (k, records_of_region k l))
           (group_keys String.compare (List.map region l)).
Proof.
  unfold groupby, records_of_region. apply List.map_ext. intros k.
  f_equal. apply List.filter_ext. intros r. apply same_region.
Qed.

Lemma region_keys_ascending (ks : list string) :
  ascending String.compare (group_keys String.compare ks).
Proof.
  apply group_keys_ascending;
    first [exact String_compare_eq | exact String.compare_antisym | exact String_compare_trans].
Qed.

Lemma region_keys_In (k : string) (ks : list string) :
  List.In k (group_keys String.compare ks) <-> List.In k ks.
Proof. apply group_keys_In_iff. exact String_compare_eq. Qed.

Lemma Z_compare_opp (a b : Z) : Z.compare a b = CompOpp (Z.compare b a).
Proof. apply Z.compare_antisym. Qed.

Lemma week_keys_ascending (ks : list Z) : ascending Z.compare (group_keys Z.compare ks).
Proof.
  apply group_keys_ascending;
    first [exact Z.compare_eq_iff | exact Z_compare_opp | exact Z_compare_trans].
Qed.

Lemma week_keys_In (k : Z) (ks : list Z) :
  List.In k (group_keys Z.compare ks) <-> List.In k ks.
Proof. apply group_keys_In_iff. exact Z.compare_eq_iff. Qed.

Lemma same_week (a b : Z) : same_key Z.compare a b = Z.eqb a b.
Proof.
  unfold same_key. destruct (Z.compare_spec a b), (Z.eqb_spec a b); try reflexivity; lia.
Qed.

(** The groups of [groupby] by week: the distinct weeks in ascending
    order, each with all its records. *)
Lemma groupby_week_groups (week : Z -> Z) (l : list Row) :
  groupby Z.compare (fun r => week (date r)) l =
  List.map (fun w => (w, records_of_week week w l))
           (group_keys Z.compare (List.map (fun r => week (date r)) l)).
Proof.
  unfold groupby, records_of_week. apply List.map_ext. intros k.
  f_equal. apply List.filter_ext. intros r. apply same_week.
Qed.

End GroupingProofs.

(** ** What a monthly report contains *)

Module ReportContentProofs.
Import Py PyFacts DashboardGenerator Notions.

(** *** The aggregates *)

Lemma aggregate_all_exact {K} (gs : list (K * list Row)) :
  Forall (fun g => (0 < List.length (snd g))%nat) gs ->
  aggregate_all gs = Ok (List.map stats_of gs).
Proof.
  induction 1 as [|g gs Hg _ IH]; simpl; [reflexivity|].
  unfold aggregate, risk_percentage, of_nat.
  rewrite (truediv_count _ _ Hg). simpl. rewrite IH. reflexivity.
Qed.

Lemma regional_statistics_exact (df : DataFrame) :
  regional_statistics df =
  Ok (List.map (fun k => round_stats (stats_of (k, records_of_region k (rows df))))
        (group_keys String.compare (List.map region (rows df)))).
Proof.
  unfold regional_statistics.
  rewrite aggregate_all_exact
    by apply ReportProofs.groupby_nonempty, ReportProofs.String_compare_refl.
  cbn [Py.bind]. rewrite GroupingProofs.groupby_region_groups, !List.map_map. reflexivity.
Qed.




(** *** Labelled columns, [idxmin] and [idxmax] *)

Lemma labelled_In {K} (f : Stats K -> option Q) (stats : list (Stats K)) (k : K) (q : Q) :
  List.In (k, q) (labelled f stats) <->
  exists s, List.In s stats /\ key s = k /\ f s = Some q.
Proof.
  unfold labelled. rewrite List.in_flat_map. split.
  - intros (s & Hs & Hin). exists s. split; [exact Hs|].
    destruct (f s) as [v|]; [|destruct Hin].
    destruct Hin as [E|[]]. inversion E. subst. now split.
  - intros (s & Hs & Hk & Hf). exists s. split; [exact Hs|].
    rewrite Hf, Hk. now left.
Qed.



Lemma first_best_spec {K} (better : Q -> Q -> bool) (R : Q -> Q -> Prop) :
  (forall x, R x x) ->
  (forall x y z, R x y -> R y z -> R x z) ->
  (forall x y, better x y = true -> R x y) ->
  (forall x y, better x y = false -> R y x) ->
  forall (l : list (K * Q)) (best : K * Q),
    exists v, List.In (first_best better best l, v) (best :: l) /\
              forall kv, List.In kv (best :: l) -> R v (snd kv).
Proof.
  intros Hrefl Htrans Hb Hnb. induction l as [|x l IH]; intros best.
  - exists (snd best). split.
    + left. now destruct best.
    + intros kv [<-|[]]. apply Hrefl.
  - simpl first_best.
    destruct (IH (if better (snd x) (snd best) then x else best)) as (v & Hin & Hall).
    exists v. split.
    + destruct Hin as [E|Hin].
      * destruct (better (snd x) (snd best)); rewrite <- E; [right; now left | now left].
      * right. now right.
    + intros kv Hkv.
      assert (Hbest : R v (snd (if better (snd x) (snd best) then x else best)))
        by (apply Hall; now left).
      destruct Hkv as [<-|[<-|Hkv]].
      * destruct (better (snd x) (snd best)) eqn:E; [|exact Hbest].
        apply (Htrans _ _ _ Hbest). now apply Hb.
      * destruct (better (snd x) (snd best)) eqn:E; [exact Hbest|].
        apply (Htrans _ _ _ Hbest). now apply Hnb.
      * apply Hall. now right.
Qed.

Lemma idxmin_spec {K} (l : list (K * Q)) (k : K) :
  idxmin l = Ok k ->
  exists v, List.In (k, v) l /\ forall kv, List.In kv l -> (v <= snd kv)%Q.
Proof.
  destruct l as [|x l]; [discriminate|]. intros H. inversion H.
  apply (first_best_spec lt Qle).
  - intros. apply Qle_refl.
  - intros x0 y z. apply Qle_trans.
  - intros x0 y E. apply lt_true in E. now apply Qlt_le_weak.
  - intros x0 y E. now apply lt_false in E.
Qed.

Lemma idxmax_spec {K} (l : list (K * Q)) (k : K) :
  idxmax l = Ok k ->
  exists v, List.In (k, v) l /\ forall kv, List.In kv l -> (snd kv <= v)%Q.
Proof.
  destruct l as [|x l]; [discriminate|]. intros H. inversion H.
  apply (first_best_spec gt (fun a b => (b <= a)%Q)).
  - intros. apply Qle_refl.
  - intros x0 y z Hyx Hzy. now apply (Qle_trans _ y).
  - intros x0 y E. apply gt_true in E. now apply Qlt_le_weak.
  - intros x0 y E. now apply gt_false in E.
Qed.

(** *** The parts of a report that was returned *)

Lemma report_parts (week : Z -> Z) (now : datetime) (df : DataFrame) (m : string) (y : Z)
  (r : Report) :
  generate_monthly_report week now df m y = Ok r ->
  (has_column df "risk_level" = true /\ has_column df "vader_compound" = true /\
   has_column df "conflict_intensity" = true /\ has_column df "region" = true) /\
  overall_statistics df = Ok (summary r) /\
  regional_statistics df = Ok (regional_analysis r) /\
  idxmin (labelled stats_vader_compound (regional_analysis r))
    = Ok (most_negative_sentiment_region (key_findings r)) /\
  idxmax (labelled stats_conflict_intensity (regional_analysis r))
    = Ok (highest_conflict_intensity_region (key_findings r)) /\
  top_high_risk_regions (key_findings r) = nlargest_3 (regional_analysis r) /\
  recommendations r = List.map recommendation (nlargest_3 (regional_analysis r)) /\
  trend_analysis week df = Ok (trends r) /\
  early_warnings r = _generate_early_warnings df.
Proof.
  unfold generate_monthly_report, require_column. cbn zeta.
  destruct (has_column df "risk_level"); cbn [Py.bind]; [|discriminate].
  destruct (has_column df "vader_compound"); cbn [Py.bind]; [|discriminate].
  destruct (has_column df "conflict_intensity"); cbn [Py.bind]; [|discriminate].
  destruct (overall_statistics df) as [s|]; cbn [Py.bind]; [|discriminate].
  destruct (has_column df "region"); cbn [Py.bind]; [|discriminate].
  destruct (regional_statistics df) as [stats|]; cbn [Py.bind]; [|discriminate].
  destruct (idxmin (labelled stats_vader_compound stats)) as [neg|] eqn:Eneg;
    cbn [Py.bind]; [|discriminate].
  destruct (idxmax (labelled stats_conflict_intensity stats)) as [hi|] eqn:Ehi;
    cbn [Py.bind]; [|discriminate].
  destruct (trend_analysis week df) as [tr|]; cbn [Py.bind]; [|discriminate].
  intros H. inversion H. subst r. clear H.
  cbn [summary regional_analysis key_findings trends recommendations early_warnings
       top_high_risk_regions most_negative_sentiment_region
       highest_conflict_intensity_region].
  repeat match goal with |- _ /\ _ => split end; auto.
Qed.






(** *** The summary *)





(** *** Rounding *)



(** *** The regional table *)


(** *** The key findings *)

Lemma insert_sorted_sorted {A} (le : A -> A -> bool) :
  (forall a b, le a b = false -> le b a = true) ->
  (forall a b c, le a b = true -> le b c = true -> le a c = true) ->
  forall (x : A) (l : list A),
    StronglySorted (fun a b => le a b = true) l ->
    StronglySorted (fun a b => le a b = true) (insert_sorted le x l).
Proof.
  intros Htot Htrans x l. induction 1 as [|y l Hl IH Hy]; simpl.
  - constructor; constructor.
  - destruct (le x y) eqn:E.
    + constructor; [now constructor|]. constructor; [exact E|].
      eapply List.Forall_impl; [|exact Hy]. intros z Hz. now apply (Htrans x y z).
    + constructor; [exact IH|]. apply List.Forall_forall. intros z Hz.
      apply (Permutation_in _ (Permutation_sym (WarningProofs.insert_sorted_Permutation le x l)))
        in Hz.
      destruct Hz as [<-|Hz]; [now apply Htot|].
      rewrite List.Forall_forall in Hy. now apply Hy.
Qed.

Lemma sort_by_sorted {A} (le : A -> A -> bool) :
  (forall a b, le a b = false -> le b a = true) ->
  (forall a b c, le a b = true -> le b c = true -> le a c = true) ->
  forall l : list A, StronglySorted (fun a b => le a b = true) (sort_by le l).
Proof.
  intros Htot Htrans. induction l as [|x l IH]; [constructor|].
  change (sort_by le (x :: l)) with (insert_sorted le x (sort_by le l)).
  now apply insert_sorted_sorted.
Qed.

Lemma sorted_app_order {A} (R : A -> A -> Prop) (l1 l2 : list A) :
  StronglySorted R (l1 ++ l2) ->
  forall x y, List.In x l1 -> List.In y l2 -> R x y.
Proof.
  induction l1 as [|a l1 IH]; simpl; intros H x y Hx Hy; [destruct Hx|].
  inversion H as [|? ? Hs Hall]; subst. destruct Hx as [<-|Hx].
  - rewrite List.Forall_forall in Hall. apply Hall, List.in_or_app. now right.
  - now apply IH.
Qed.

Lemma sorted_prefix {A} (R : A -> A -> Prop) (l1 l2 : list A) :
  StronglySorted R (l1 ++ l2) -> StronglySorted R l1.
Proof.
  induction l1 as [|a l1 IH]; simpl; intros H; [constructor|].
  inversion H as [|? ? Hs Hall]; subst. constructor; [now apply IH|].
  apply List.Forall_app in Hall. tauto.
Qed.

Lemma sorted_weaken {A} (R S : A -> A -> Prop) (l : list A) :
  (forall a b, R a b -> S a b) -> StronglySorted R l -> StronglySorted S l.
Proof.
  intros HRS. induction 1 as [|a l Hl IH Ha]; constructor; [exact IH|].
  eapply List.Forall_impl; [|exact Ha]. intros b. apply HRS.
Qed.

Lemma NoDup_map_injective {A B} (f : A -> B) (l : list A) :
  List.NoDup (List.map f l) ->
  forall x y, List.In x l -> List.In y l -> f x = f y -> x = y.
Proof.
  induction l as [|a l IH]; simpl; intros H x y Hx Hy E; [destruct Hx|].
  inversion H as [|? ? Hnot Hnd]; subst.
  destruct Hx as [<-|Hx], Hy as [<-|Hy]; auto.
  - exfalso. apply Hnot. rewrite E. now apply List.in_map.
  - exfalso. apply Hnot. rewrite <- E. now apply List.in_map.
Qed.

Lemma by_risk_total (a b : Stats string) :
  Qle_bool (stats_risk_level b) (stats_risk_level a) = false ->
  Qle_bool (stats_risk_level a) (stats_risk_level b) = true.
Proof. intros H. apply Qle_bool_false in H. apply Qle_bool_iff. lra. Qed.

Lemma by_risk_trans (a b c : Stats string) :
  Qle_bool (stats_risk_level b) (stats_risk_level a) = true ->
  Qle_bool (stats_risk_level c) (stats_risk_level b) = true ->
  Qle_bool (stats_risk_level c) (stats_risk_level a) = true.
Proof. rewrite !Qle_bool_iff. lra. Qed.

Lemma nlargest_3_spec (stats : list (Stats string)) :
  List.NoDup (List.map key stats) ->
  exists picked : list (Stats string),
    nlargest_3 stats = List.map key picked /\
    List.length picked = Nat.min 3 (List.length stats) /\
    (forall s, List.In s picked -> List.In s stats) /\
    List.NoDup (List.map key picked) /\
    StronglySorted (fun a b => (stats_risk_level b <= stats_risk_level a)%Q) picked /\
    (forall a b, List.In a picked -> List.In b stats -> ~ List.In b picked ->
                 (stats_risk_level b <= stats_risk_level a)%Q).
Proof.
  intros Hnd. unfold nlargest_3.
  set (le := fun a b : Stats string => Qle_bool (stats_risk_level b) (stats_risk_level a)).
  pose proof (WarningProofs.sort_by_Permutation le stats) as Hperm.
  pose proof (sort_by_sorted le by_risk_total by_risk_trans stats) as Hsorted.
  pose proof (List.firstn_skipn 3 (sort_by le stats)) as Hsplit.
  set (sorted := sort_by le stats) in *.
  exists (firstn 3 sorted). split; [reflexivity|].
  split; [|split; [|split; [|split]]].
  - rewrite List.length_firstn. now rewrite <- (Permutation_length Hperm).
  - intros s Hs. apply (Permutation_in _ (Permutation_sym Hperm)).
    rewrite <- Hsplit. apply List.in_or_app. now left.
  - apply (List.NoDup_app_remove_r _ (List.map key (skipn 3 sorted))).
    rewrite <- List.map_app, Hsplit.
    apply (Permutation_NoDup (Permutation_map key Hperm) Hnd).
  - rewrite <- Hsplit in Hsorted. apply sorted_prefix in Hsorted.
    eapply sorted_weaken; [|exact Hsorted].
    intros a b H. now apply Qle_bool_iff in H.
  - intros a b Ha Hb Hnot.
    assert (Hb' : List.In b (skipn 3 sorted)).
    { apply (Permutation_in _ Hperm) in Hb. rewrite <- Hsplit in Hb.
      apply List.in_app_or in Hb as [Hb|Hb]; [contradiction | exact Hb]. }
    rewrite <- Hsplit in Hsorted.
    pose proof (sorted_app_order _ _ _ Hsorted a b Ha Hb') as H.
    now apply Qle_bool_iff in H.
Qed.

Lemma regional_keys_NoDup (df : DataFrame) (stats : list (Stats string)) :
  regional_statistics df = Ok stats -> List.NoDup (List.map key stats).
Proof.
  rewrite regional_statistics_exact. intros H. inversion H as [E]. clear H E.
  rewrite List.map_map. cbn [key round_stats stats_of fst]. rewrite List.map_id.
  apply (GroupingProofs.ascending_NoDup String.compare GroupingProofs.String_compare_eq).
  apply GroupingProofs.region_keys_ascending.
Qed.

(** X13.  In a report that is returned, the top high risk regions are
    at most three lines of the regional analysis, all of them when
    there are fewer than four, without repetition and listed by
    decreasing percentage of high-risk records; no line left out has a
    higher percentage than a line that was picked.  There is one
    recommendation for each of them, in the same order. *)
Theorem top_regions_are_the_riskiest
  (week : Z -> Z) (now : datetime) (df : DataFrame) (m : string) (y : Z) (r : Report) :
  generate_monthly_report week now df m y = Ok r ->
  exists picked : list (Stats string),
    top_high_risk_regions (key_findings r) = List.map key picked /\
    List.length picked = Nat.min 3 (List.length (regional_analysis r)) /\
    (forall s, List.In s picked -> List.In s (regional_analysis r)) /\
    List.NoDup (top_high_risk_regions (key_findings r)) /\
    StronglySorted (fun a b => (stats_risk_level b <= stats_risk_level a)%Q) picked /\
    (forall a b, List.In a picked -> List.In b (regional_analysis r) -> ~ List.In b picked ->
                 (stats_risk_level b <= stats_risk_level a)%Q) /\
    recommendations r =
      List.map (fun region => "Increase monitoring and peacekeeping presence in " ++ region)%string
               (top_high_risk_regions (key_findings r)).
Proof.
  intros Hr. destruct (report_parts _ _ _ _ _ _ Hr) as (_ & _ & Hreg & _ & _ & Htop & Hrec & _).
  destruct (nlargest_3_spec (regional_analysis r) (regional_keys_NoDup df _ Hreg))
    as (picked & E & Hlen & Hin & Hnd & Hsorted & Hrest).
  exists picked. rewrite Htop, Hrec, E.
  repeat match goal with |- _ /\ _ => split end; auto.
Qed.

(** A report of [undated_batch]: Nairobi, where both records are high
    risk, comes before Mombasa. *)
Lemma top_regions_are_the_riskiest_witness :
  exists r : Report,
    generate_monthly_report (fun d => d / 7)%Z (clock_reading 7 0) undated_batch "June" 2024
      = Ok r /\
    top_high_risk_regions (key_findings r) = ["Nairobi"; "Mombasa"] /\
    exists picked : list (Stats string),
      top_high_risk_regions (key_findings r) = List.map key picked /\
      List.length picked = Nat.min 3 (List.length (regional_analysis r)) /\
      (forall s, List.In s picked -> List.In s (regional_analysis r)) /\
      List.NoDup (top_high_risk_regions (key_findings r)) /\
      StronglySorted (fun a b => (stats_risk_level b <= stats_risk_level a)%Q) picked /\
      (forall a b, List.In a picked -> List.In b (regional_analysis r) -> ~ List.In b picked ->
                   (stats_risk_level b <= stats_risk_level a)%Q) /\
      recommendations r =
        List.map (fun region => "Increase monitoring and peacekeeping presence in " ++ region)%string
                 (top_high_risk_regions (key_findings r)).
Proof.
  eexists. split; [vm_compute; reflexivity|]. split; [vm_compute; reflexivity|].
  apply (top_regions_are_the_riskiest (fun d => d / 7)%Z (clock_reading 7 0) undated_batch
           "June" 2024).
  vm_compute. reflexivity.
Defined.

(** X14.  In a report that is returned, the most negative sentiment
    region is a region of the regional analysis whose rounded mean
    sentiment no other region is below, and the highest conflict
    intensity region is one whose rounded mean intensity no other
    region is above. *)
Theorem extreme_regions_are_extreme
  (week : Z -> Z) (now : datetime) (df : DataFrame) (m : string) (y : Z) (r : Report) :
  generate_monthly_report week now df m y = Ok r ->
  (exists (s : Stats string) (v : Q),
     List.In s (regional_analysis r) /\
     key s = most_negative_sentiment_region (key_findings r) /\
     stats_vader_compound s = Some v /\
     forall (s' : Stats string) (v' : Q),
       List.In s' (regional_analysis r) -> stats_vader_compound s' = Some v' ->
       (v <= v')%Q) /\
  (exists (s : Stats string) (v : Q),
     List.In s (regional_analysis r) /\
     key s = highest_conflict_intensity_region (key_findings r) /\
     stats_conflict_intensity s = Some v /\
     forall (s' : Stats string) (v' : Q),
       List.In s' (regional_analysis r) -> stats_conflict_intensity s' = Some v' ->
       (v' <= v)%Q).
Proof.
  intros Hr. destruct (report_parts _ _ _ _ _ _ Hr) as (_ & _ & _ & Hneg & Hhi & _).
  split.
  - destruct (idxmin_spec _ _ Hneg) as (v & Hin & Hall).
    apply labelled_In in Hin as (s & Hs & Hk & Hv). exists s, v.
    repeat split; try assumption. intros s' v' Hs' Hv'.
    apply (Hall (key s', v')). apply labelled_In. now exists s'.
  - destruct (idxmax_spec _ _ Hhi) as (v & Hin & Hall).
    apply labelled_In in Hin as (s & Hs & Hk & Hv). exists s, v.
    repeat split; try assumption. intros s' v' Hs' Hv'.
    apply (Hall (key s', v')). apply labelled_In. now exists s'.
Qed.

(** A report of [undated_batch]: Nairobi is both the most negative
    region and the region of highest intensity. *)
Lemma extreme_regions_are_extreme_witness :
  exists r : Report,
    generate_monthly_report (fun d => d / 7)%Z (clock_reading 7 0) undated_batch "June" 2024
      = Ok r /\
    most_negative_sentiment_region (key_findings r) = "Nairobi" /\
    highest_conflict_intensity_region (key_findings r) = "Nairobi" /\
    (exists (s : Stats string) (v : Q),
       List.In s (regional_analysis r) /\
       key s = most_negative_sentiment_region (key_findings r) /\
       stats_vader_compound s = Some v /\
       forall (s' : Stats string) (v' : Q),
         List.In s' (regional_analysis r) -> stats_vader_compound s' = Some v' ->
         (v <= v')%Q) /\
    (exists (s : Stats string) (v : Q),
       List.In s (regional_analysis r) /\
       key s = highest_conflict_intensity_region (key_findings r) /\
       stats_conflict_intensity s = Some v /\
       forall (s' : Stats string) (v' : Q),
         List.In s' (regional_analysis r) -> stats_conflict_intensity s' = Some v' ->
         (v' <= v)%Q).
Proof.
  eexists. split; [vm_compute; reflexivity|].
  split; [vm_compute; reflexivity|]. split; [vm_compute; reflexivity|].
  apply (extreme_regions_are_extreme (fun d => d / 7)%Z (clock_reading 7 0) undated_batch
           "June" 2024).
  vm_compute. reflexivity.
Defined.

(** *** The weekly trends *)

Lemma weekly_statistics_exact (week : Z -> Z) (l : list Row) :
  aggregate_all (groupby Z.compare (fun r => week (date r)) l) =
  Ok (List.map (fun w => stats_of (w, records_of_week week w l))
        (group_keys Z.compare (List.map (fun r => week (date r)) l))).
Proof.
  rewrite aggregate_all_exact by apply ReportProofs.groupby_nonempty, Z.compare_refl.
  now rewrite GroupingProofs.groupby_week_groups, List.map_map.
Qed.

(** X15.  In a report that is returned, the trends are left empty
    when the batch has no date column.  When it has one, the three
    weekly lists have one entry for each week in which a record falls,
    in ascending order of the weeks: the means of the records of the
    week and the percentage of them that are High or Critical, none of
    them rounded; and the peak risk week is one of these weeks, with a
    percentage that no other week exceeds. *)
Theorem weekly_trends_follow_the_weeks
  (week : Z -> Z) (now : datetime) (df : DataFrame) (m : string) (y : Z) (r : Report) :
  generate_monthly_report week now df m y = Ok r ->
  (has_column df "date" = false -> trends r = None) /\
  (has_column df "date" = true ->
   exists t : Trends,
     trends r = Some t /\
     let weeks := group_keys Z.compare (List.map (fun row => week (date row)) (rows df)) in
     let of_week := fun w => stats_of (w, records_of_week week w (rows df)) in
     ascending Z.compare weeks /\
     (forall w, List.In w weeks <-> exists row, List.In row (rows df) /\ week (date row) = w) /\
     weekly_sentiment_trend t = List.map (fun w => stats_vader_compound (of_week w)) weeks /\
     weekly_intensity_trend t = List.map (fun w => stats_conflict_intensity (of_week w)) weeks /\
     weekly_risk_trend t = List.map (fun w => stats_risk_level (of_week w)) weeks /\
     List.In (peak_risk_week t) weeks /\
     forall w, List.In w weeks ->
       (stats_risk_level (of_week w) <= stats_risk_level (of_week (peak_risk_week t)))%Q).
Proof.
  intros Hr.
  destruct (report_parts _ _ _ _ _ _ Hr) as (_ & _ & _ & _ & _ & _ & _ & Htr & _).
  unfold trend_analysis in Htr. split; intros Hdate; rewrite Hdate in Htr.
  - congruence.
  - rewrite weekly_statistics_exact in Htr. cbn [Py.bind] in Htr.
    destruct (idxmax _) as [peak|] eqn:Epeak; cbn [Py.bind] in Htr; [|discriminate].
    inversion Htr as [E]. clear Htr E. eexists. split; [reflexivity|].
    cbn [weekly_sentiment_trend weekly_intensity_trend weekly_risk_trend peak_risk_week].
    cbv zeta. rewrite !List.map_map.
    apply idxmax_spec in Epeak as (v & Hin & Hall).
    unfold labelled_risk in Hin, Hall. rewrite List.map_map in Hin, Hall.
    apply List.in_map_iff in Hin as (w & E & Hw).
    cbn [key stats_of fst] in E. inversion E; subst.
    repeat match goal with |- _ /\ _ => split end; try reflexivity.
    + apply GroupingProofs.week_keys_ascending.
    + intros w'. rewrite GroupingProofs.week_keys_In, List.in_map_iff.
      split; intros (row & H1 & H2); exists row; now split.
    + exact Hw.
    + intros w' Hw'.
      apply (Hall (w', stats_risk_level (stats_of (w', records_of_week week w' (rows df))))).
      apply List.in_map_iff. exists w'. now split.
Qed.

(** A report of [sentiment_drop_batch], whose fourteen days fall in
    weeks 0, 1 and 2. *)
Lemma weekly_trends_follow_the_weeks_witness :
  exists r : Report,
    generate_monthly_report (fun d => d / 7)%Z (clock_reading 7 0) sentiment_drop_batch
      "June" 2024 = Ok r /\
    (has_column sentiment_drop_batch "date" = false -> trends r = None) /\
    (has_column sentiment_drop_batch "date" = true ->
     exists t : Trends,
       trends r = Some t /\
       let weeks := group_keys Z.compare
                      (List.map (fun row => (date row / 7)%Z) (rows sentiment_drop_batch)) in
       let of_week :=
         fun w => stats_of (w, records_of_week (fun d => d / 7)%Z w (rows sentiment_drop_batch)) in
       ascending Z.compare weeks /\
       (forall w, List.In w weeks <->
                  exists row, List.In row (rows sentiment_drop_batch) /\ (date row / 7)%Z = w) /\
       weekly_sentiment_trend t = List.map (fun w => stats_vader_compound (of_week w)) weeks /\
       weekly_intensity_trend t
         = List.map (fun w => stats_conflict_intensity (of_week w)) weeks /\
       weekly_risk_trend t = List.map (fun w => stats_risk_level (of_week w)) weeks /\
       List.In (peak_risk_week t) weeks /\
       forall w, List.In w weeks ->
         (stats_risk_level (of_week w) <= stats_risk_level (of_week (peak_risk_week t)))%Q).
Proof.
  eexists. split; [vm_compute; reflexivity|].
  apply (weekly_trends_follow_the_weeks (fun d => d / 7)%Z (clock_reading 7 0)
           sentiment_drop_batch "June" 2024).
  vm_compute. reflexivity.
Defined.

End ReportContentProofs.

(** ** The overview computed by the endpoint [/predict] *)

Module ApiProofs.
Import Py PyFacts Api Notions.

Lemma high_risk_count_le (ps : list prediction) :
  (high_risk_count ps <= List.length ps)%nat.
Proof. apply List.filter_length_le. Qed.

Lemma share_above (c h n : nat) :
  (0 < n)%nat ->
  gt (of_nat h / of_nat n * 100) (inject_Z (Z.of_nat c)) = true <-> (c * n < 100 * h)%nat.
Proof.
  intros Hn. rewrite gt_true. destruct n as [|n']; [lia|].
  unfold of_nat, Qlt, Qdiv, Qmult, Qinv. simpl. lia.
Qed.

Lemma risk_overview_exact (nltk : TextPreprocessor.nlp) (tweets : list TweetData) :
  risk_overview nltk tweets =
  Ok {| predictions := analyze_all nltk tweets;
        overall_risk :=
          overall_risk_of
            (if (0 <? List.length (analyze_all nltk tweets))%nat
             then (of_nat (high_risk_count (analyze_all nltk tweets))
                   / of_nat (List.length (analyze_all nltk tweets)) * 100)%Q
             else 0%Q);
        risky_regions := high_risk_regions (analyze_all nltk tweets) |}.
Proof.
  unfold risk_overview, high_risk_percentage.
  destruct (0 <? List.length (analyze_all nltk tweets))%nat eqn:E; [|reflexivity].
  apply Nat.ltb_lt in E. unfold of_nat. rewrite (truediv_count _ _ E). reflexivity.
Qed.

Lemma overall_risk_of_share (h n : nat) :
  (h <= n)%nat ->
  let risk := overall_risk_of (if (0 <? n)%nat then (of_nat h / of_nat n * 100)%Q else 0%Q) in
  (risk = TextPreprocessor.Critical <-> (7 * n < 10 * h)%nat) /\
  (risk = TextPreprocessor.High <-> (5 * n < 10 * h <= 7 * n)%nat) /\
  (risk = TextPreprocessor.Medium <-> (3 * n < 10 * h <= 5 * n)%nat) /\
  (risk = TextPreprocessor.Low <-> (10 * h <= 3 * n)%nat).
Proof.
  intros Hle. cbv zeta. destruct (0 <? n)%nat eqn:E.
  - apply Nat.ltb_lt in E. unfold overall_risk_of.
    pose proof (share_above 70 h n E) as H70.
    pose proof (share_above 50 h n E) as H50.
    pose proof (share_above 30 h n E) as H30.
    change (inject_Z (Z.of_nat 70)) with 70%Q in H70.
    change (inject_Z (Z.of_nat 50)) with 50%Q in H50.
    change (inject_Z (Z.of_nat 30)) with 30%Q in H30.
    destruct (gt (of_nat h / of_nat n * 100) 70) eqn:E70;
      [|destruct (gt (of_nat h / of_nat n * 100) 50) eqn:E50;
        [|destruct (gt (of_nat h / of_nat n * 100) 30) eqn:E30]];
      repeat match goal with
             | H : true = true <-> _ |- _ => apply proj1 in H; specialize (H eq_refl)
             | H : false = true <-> _ |- _ =>
                 let H' := fresh in
                 assert (H' := fun x => Bool.diff_false_true (proj2 H x)); clear H
             end;
      repeat split; intros; try discriminate; try lia.
  - apply Nat.ltb_ge in E. assert (n = 0%nat) by lia. subst n.
    assert (h = 0%nat) by lia. subst h. vm_compute.
    repeat split; intros; try discriminate; try lia.
Qed.

(** X16.  The overview of a request never fails, also on a request
    without tweets, where the overall risk is Low and no region is
    listed.  There is one prediction for each tweet, and the overall
    risk follows the share of the predictions whose level is High or
    Critical: Critical above 70 percent, High above 50, Medium above
    30, Low otherwise. *)
Theorem overall_risk_follows_the_share
  (nltk : TextPreprocessor.nlp) (tweets : list TweetData) :
  exists o : overview,
    risk_overview nltk tweets = Ok o /\
    List.length (predictions o) = List.length tweets /\
    let n := List.length tweets in
    let h := high_risk_count (predictions o) in
    (h <= n)%nat /\
    (overall_risk o = TextPreprocessor.Critical <-> (7 * n < 10 * h)%nat) /\
    (overall_risk o = TextPreprocessor.High <-> (5 * n < 10 * h <= 7 * n)%nat) /\
    (overall_risk o = TextPreprocessor.Medium <-> (3 * n < 10 * h <= 5 * n)%nat) /\
    (overall_risk o = TextPreprocessor.Low <-> (10 * h <= 3 * n)%nat) /\
    (tweets = [] -> overall_risk o = TextPreprocessor.Low /\ risky_regions o = []).
Proof.
  eexists. split; [apply risk_overview_exact|].
  cbn [predictions overall_risk risky_regions].
  assert (Hlen : List.length (analyze_all nltk tweets) = List.length tweets)
    by apply List.length_map.
  split; [exact Hlen|]. cbv zeta.
  pose proof (high_risk_count_le (analyze_all nltk tweets)) as Hle.
  destruct (overall_risk_of_share _ _ Hle) as (H7 & H5 & H3 & H0).
  rewrite Hlen in *.
  repeat match goal with |- _ /\ _ => split end; try assumption.
  intros ->. split; reflexivity.
Qed.

(** *** The regions *)

Lemma group_of_region (k : string) (ps : list prediction) :
  List.map snd
    (List.filter (fun rp => DashboardGenerator.same_key String.compare (fst rp) k)
                 (with_region ps))
  = predictions_of_region k ps.
Proof.
  unfold with_region, predictions_of_region.
  induction ps as [|p ps IH]; [reflexivity|].
  cbn [flat_map List.filter]. destruct (prediction_region p) as [r|]; [|exact IH].
  cbn [List.app List.filter fst]. rewrite GroupingProofs.same_region.
  destruct (String.eqb r k); cbn [List.map snd]; now rewrite IH.
Qed.

Lemma region_of_named (ps : list prediction) (k : string) :
  List.In k (List.map fst (with_region ps)) <->
  exists p, List.In p ps /\ prediction_region p = Some k.
Proof.
  unfold with_region. rewrite List.in_map_iff. split.
  - intros ([r p] & <- & Hin). apply List.in_flat_map in Hin as (p' & Hp' & Hin).
    exists p'. split; [exact Hp'|].
    destruct (prediction_region p'); [|destruct Hin].
    destruct Hin as [E|[]]. now inversion E.
  - intros (p & Hp & Hr). exists (k, p). split; [reflexivity|].
    apply List.in_flat_map. exists p. split; [exact Hp|]. rewrite Hr. now left.
Qed.

Lemma high_risk_regions_exact (ps : list prediction) :
  high_risk_regions ps =
  List.filter (fun k => above_50 (share_percent (predictions_of_region k ps)))
              (DashboardGenerator.group_keys String.compare (List.map fst (with_region ps))).
Proof.
  transitivity (List.map fst (List.filter (fun kr => above_50 (snd kr)) (region_risks ps))).
  { destruct ps; reflexivity. }
  unfold region_risks, groupby_region. rewrite List.map_map. cbn [fst snd].
  induction (DashboardGenerator.group_keys String.compare (List.map fst (with_region ps)))
    as [|k ks IH]; [reflexivity|].
  cbn [List.map List.filter snd]. rewrite group_of_region.
  destruct (above_50 (share_percent (predictions_of_region k ps)));
    cbn [List.map fst]; now rewrite IH.
Qed.

Lemma above_50_majority (g : list prediction) :
  above_50 (share_percent g) = true <->
  (List.length g < 2 * high_risk_count g)%nat.
Proof.
  unfold share_percent. destruct (List.length g =? 0)%nat eqn:E.
  - apply Nat.eqb_eq in E. pose proof (high_risk_count_le g). simpl. split; [discriminate|lia].
  - apply Nat.eqb_neq in E. cbn [above_50].
    change 50%Q with (inject_Z (Z.of_nat 50)). rewrite share_above by lia. lia.
Qed.

Lemma sorted_filter {A} (R : A -> A -> Prop) (f : A -> bool) (l : list A) :
  StronglySorted R l -> StronglySorted R (List.filter f l).
Proof.
  induction 1 as [|a l Hl IH Ha]; simpl; [constructor|].
  destruct (f a); [|exact IH]. constructor; [exact IH|].
  rewrite List.Forall_forall in *. intros x Hx. apply Ha.
  now apply List.filter_In in Hx.
Qed.

(** X17.  The high risk regions of an overview are the regions named
    by the tweets of the request in which more than half of the
    predictions are High or Critical, in ascending order of the names
    and so without repetition.  A tweet without a region counts for no
    region. *)
Theorem high_risk_regions_have_a_majority
  (nltk : TextPreprocessor.nlp) (tweets : list TweetData) :
  exists o : overview,
    risk_overview nltk tweets = Ok o /\
    ascending String.compare (risky_regions o) /\
    forall k : string,
      List.In k (risky_regions o) <->
      let group := predictions_of_region k (predictions o) in
      (List.length group < 2 * high_risk_count group)%nat.
Proof.
  eexists. split; [apply risk_overview_exact|].
  cbn [predictions risky_regions]. rewrite high_risk_regions_exact. split.
  - apply sorted_filter, GroupingProofs.region_keys_ascending.
  - intros k. cbv zeta. rewrite List.filter_In, above_50_majority.
    split; [tauto|]. intros H. split; [|exact H].
    apply GroupingProofs.region_keys_In, region_of_named.
    destruct (predictions_of_region k (analyze_all nltk tweets)) as [|p g] eqn:E.
    + simpl in H. lia.
    + assert (Hp : List.In p (predictions_of_region k (analyze_all nltk tweets)))
        by (rewrite E; now left).
      apply List.filter_In in Hp as [Hp Hr]. exists p. split; [exact Hp|].
      destruct (prediction_region p) as [r|]; [|discriminate].
      apply String.eqb_eq in Hr. now subst.
Qed.

(** *** A high overall risk shows in some region *)

Lemma list_sum_le {K} (g h : K -> nat) (keys : list K) :
  (forall k, List.In k keys -> (g k <= h k)%nat) ->
  (list_sum (List.map g keys) <= list_sum (List.map h keys))%nat.
Proof.
  induction keys as [|k keys IH]; intros H; simpl; [lia|].
  pose proof (H k (or_introl eq_refl)).
  assert (list_sum (List.map g keys) <= list_sum (List.map h keys))%nat
    by (apply IH; intros; apply H; now right).
  lia.
Qed.

Lemma filter_map_length {A B} (f : A -> B) (p : B -> bool) (l : list A) :
  List.length (List.filter p (List.map f l))
  = List.length (List.filter (fun x => p (f x)) l).
Proof.
  induction l as [|x l IH]; simpl; [reflexivity|].
  destruct (p (f x)); simpl; now rewrite IH.
Qed.

Lemma filter_all_length {A} (l : list A) :
  List.length (List.filter (fun _ => true) l) = List.length l.
Proof. induction l; simpl; auto. Qed.

Lemma with_region_all (ps : list prediction) :
  (forall p, List.In p ps -> prediction_region p <> None) ->
  List.map snd (with_region ps) = ps.
Proof.
  unfold with_region. induction ps as [|p ps IH]; intros H; [reflexivity|].
  cbn [flat_map]. pose proof (H p (or_introl eq_refl)) as Hp.
  destruct (prediction_region p); [|congruence].
  cbn [List.app List.map snd]. f_equal. apply IH. intros q Hq. apply H. now right.
Qed.

Lemma majority_in_some_region (ps : list prediction) :
  (forall p, List.In p ps -> prediction_region p <> None) ->
  (List.length ps < 2 * high_risk_count ps)%nat ->
  high_risk_regions ps <> [].
Proof.
  intros Hall Hmaj Hnone. rewrite high_risk_regions_exact in Hnone.
  set (named := with_region ps) in *.
  set (keys := DashboardGenerator.group_keys String.compare (List.map fst named)) in *.
  assert (Hnd : List.NoDup keys).
  { apply (GroupingProofs.ascending_NoDup String.compare GroupingProofs.String_compare_eq).
    apply GroupingProofs.region_keys_ascending. }
  assert (Hin : forall x, List.In x named -> List.In (fst x) keys).
  { intros x Hx. apply GroupingProofs.region_keys_In. now apply List.in_map. }
  pose proof (GroupingProofs.groups_partition String.compare GroupingProofs.String_compare_eq
                fst (fun rp => is_high_risk (snd rp)) keys named Hnd Hin) as Hhigh.
  pose proof (GroupingProofs.groups_partition String.compare GroupingProofs.String_compare_eq
                fst (fun _ => true) keys named Hnd Hin) as Htotal.
  rewrite filter_all_length in Htotal.
  assert (Hnamed : List.map snd named = ps) by now apply with_region_all.
  assert (Hn : List.length named = List.length ps).
  { transitivity (List.length (List.map snd named));
      [now rewrite List.length_map | now rewrite Hnamed]. }
  assert (Hh : List.length (List.filter (fun rp => is_high_risk (snd rp)) named)
               = high_risk_count ps).
  { unfold high_risk_count. rewrite <- (filter_map_length snd is_high_risk named).
    now rewrite Hnamed. }
  assert (Hpoint : forall k, List.In k keys ->
            (2 * List.length
                   (List.filter (fun rp => is_high_risk (snd rp))
                      (List.filter
                         (fun x => DashboardGenerator.same_key String.compare (fst x) k) named))
             <= List.length
                  (List.filter (fun _ => true)
                     (List.filter
                        (fun x => DashboardGenerator.same_key String.compare (fst x) k) named)))%nat).
  { intros k Hk.
    destruct (above_50 (share_percent (predictions_of_region k ps))) eqn:E.
    - assert (Hk' : List.In k (List.filter
                       (fun k => above_50 (share_percent (predictions_of_region k ps))) keys))
        by (apply List.filter_In; now split).
      rewrite Hnone in Hk'. destruct Hk'.
    - assert (Hnot : ~ (List.length (predictions_of_region k ps)
                        < 2 * high_risk_count (predictions_of_region k ps))%nat).
      { intros H. apply above_50_majority in H. congruence. }
      rewrite <- group_of_region in Hnot. unfold high_risk_count in Hnot.
      rewrite filter_map_length, List.length_map in Hnot.
      fold named in Hnot. rewrite filter_all_length. lia. }
  pose proof (list_sum_le _ _ keys Hpoint) as Hsum.
  rewrite Htotal in Hsum.
  assert (Hdouble : forall (g : string -> nat) (ks : list string),
            list_sum (List.map (fun k => (2 * g k)%nat) ks)
            = (2 * list_sum (List.map g ks))%nat).
  { intros g ks. induction ks as [|k ks IH]; simpl; [reflexivity|].
    simpl in IH. rewrite IH. lia. }
  rewrite (Hdouble (fun k => List.length
                      (List.filter (fun rp => is_high_risk (snd rp))
                         (List.filter
                            (fun x => DashboardGenerator.same_key String.compare (fst x) k)
                            named)))) in Hsum.
  rewrite Hhigh in Hsum. lia.
Qed.

(** X18.  When every tweet of a request names its region and the
    overall risk is High or Critical, at least one region is listed as
    a high risk region. *)
Theorem high_overall_risk_has_a_region
  (nltk : TextPreprocessor.nlp) (tweets : list TweetData) (o : overview) :
  risk_overview nltk tweets = Ok o ->
  (forall t, List.In t tweets -> region t <> None) ->
  overall_risk o = TextPreprocessor.High \/ overall_risk o = TextPreprocessor.Critical ->
  risky_regions o <> [].
Proof.
  intros Ho Hall Hrisk. rewrite risk_overview_exact in Ho. inversion Ho as [E]. clear Ho.
  rewrite <- E in Hrisk. cbn [overall_risk risky_regions] in *.
  pose proof (high_risk_count_le (analyze_all nltk tweets)) as Hle.
  destruct (overall_risk_of_share _ _ Hle) as (H7 & H5 & _).
  apply majority_in_some_region.
  - unfold analyze_all. intros p Hp. apply List.in_map_iff in Hp as (t & <- & Ht).
    cbn [prediction_region]. now apply Hall.
  - destruct Hrisk as [Hrisk|Hrisk]; [apply H5 in Hrisk | apply H7 in Hrisk]; lia.
Qed.

(** The overview of [alarming_request] with lexicons that score every
    text as neutral: two of three predictions are High, both from
    Nairobi. *)
Lemma high_overall_risk_has_a_region_witness :
  exists o : overview,
    risk_overview TextPreprocessor.sample_nlp alarming_request = Ok o /\
    overall_risk o = TextPreprocessor.High /\
    risky_regions o = ["Nairobi"] /\
    risky_regions o <> [].
Proof.
  eexists. split; [vm_compute; reflexivity|].
  split; [vm_compute; reflexivity|]. split; [vm_compute; reflexivity|].
  apply (high_overall_risk_has_a_region TextPreprocessor.sample_nlp alarming_request).
  - vm_compute. reflexivity.
  - intros t Ht. vm_compute in Ht.
    repeat (destruct Ht as [<-|Ht]; [discriminate|]). destruct Ht.
  - left. vm_compute. reflexivity.
Defined.

End ApiProofs.

(** ** The list of early warnings *)

Module AlertProofs.
Import Py PyFacts DashboardGenerator Notions.

Lemma sentiment_drop_check_cases (df : DataFrame) :
  sentiment_drop_check df = [] \/
  exists recent previous : Q,
    (recent < previous - 0.3)%Q /\
    sentiment_drop_check df = [sentiment_drop_warning recent previous].
Proof.
  unfold sentiment_drop_check.
  destruct (has_column df "vader_compound" && has_column df "date"); [|now left].
  cbv zeta.
  destruct (mean (tail 7 _)) as [recent|]; [|now left].
  destruct (mean (head 7 _)) as [previous|]; [|now left].
  destruct (lt recent (previous - 0.3)%Q) eqn:E; [|now left].
  right. exists recent, previous. split; [now apply lt_true | reflexivity].
Qed.

Lemma intensity_cluster_check_cases (df : DataFrame) :
  intensity_cluster_check df = [] \/
  ((10 < high_intensity_count df)%nat /\
   intensity_cluster_check df = [high_intensity_warning (high_intensity_count df)]).
Proof.
  unfold intensity_cluster_check.
  destruct (has_column df "conflict_intensity"); [|now left].
  destruct (10 <? high_intensity_count df)%nat eqn:E; [|now left].
  right. split; [now apply Nat.ltb_lt | reflexivity].
Qed.

Lemma high_intensity_count_le (df : DataFrame) :
  (high_intensity_count df <= List.length (rows df))%nat.
Proof. apply List.filter_length_le. Qed.

(** X19.  [_generate_early_warnings] returns at most two warnings and
    at most one of each type: a sentiment_drop warning of severity
    high, then a high_intensity_cluster warning of severity critical,
    which is only given when more than ten records are above 0.7.  A
    batch of at most seven records gets no warning, a batch of at most
    ten records no high_intensity_cluster warning, and a batch with
    neither a date nor a conflict_intensity column no warning. *)
Theorem early_warnings_shape (df : DataFrame) :
  let warnings := _generate_early_warnings df in
  (List.length warnings <= 2)%nat /\
  List.NoDup (List.map type warnings) /\
  (forall w, List.In w warnings ->
     (type w = "sentiment_drop" /\ severity w = "high") \/
     (type w = "high_intensity_cluster" /\ severity w = "critical" /\
      (10 < high_intensity_count df)%nat)) /\
  (forall a b rest, warnings = a :: b :: rest ->
     type a = "sentiment_drop" /\ type b = "high_intensity_cluster") /\
  ((List.length (rows df) <= 7)%nat -> warnings = []) /\
  ((List.length (rows df) <= 10)%nat -> of_type "high_intensity_cluster" warnings = []) /\
  (has_column df "date" = false -> has_column df "conflict_intensity" = false ->
   warnings = []).
Proof.
  cbv zeta.
  assert (Hsmall : (List.length (rows df) <= 10)%nat -> intensity_cluster_check df = []).
  { intros Hlen. destruct (intensity_cluster_check_cases df) as [E|[Hn _]]; [exact E|].
    pose proof (high_intensity_count_le df). lia. }
  split; [|split; [|split; [|split; [|split; [|split]]]]].
  - unfold _generate_early_warnings. cbn zeta. cbn [List.app].
    destruct (sentiment_drop_check_cases df) as [->|(r & p & _ & ->)],
             (intensity_cluster_check_cases df) as [->|[_ ->]]; simpl; lia.
  - unfold _generate_early_warnings. cbn zeta. cbn [List.app].
    destruct (sentiment_drop_check_cases df) as [->|(r & p & _ & ->)],
             (intensity_cluster_check_cases df) as [->|[_ ->]]; simpl;
      repeat constructor; simpl; intuition discriminate.
  - unfold _generate_early_warnings. cbn zeta. cbn [List.app].
    destruct (sentiment_drop_check_cases df) as [->|(r & p & _ & ->)],
             (intensity_cluster_check_cases df) as [->|[Hn ->]]; simpl;
      intros w Hw; intuition (subst; simpl; auto).
  - unfold _generate_early_warnings. cbn zeta. cbn [List.app].
    destruct (sentiment_drop_check_cases df) as [->|(r & p & _ & ->)],
             (intensity_cluster_check_cases df) as [->|[Hn ->]]; simpl;
      intros a b rest E; inversion E; subst; split; reflexivity.
  - intros Hlen.
    pose proof (WarningProofs.sentiment_drop_needs_eight_records df Hlen) as Hs.
    rewrite WarningProofs.sentiment_alerts in Hs.
    unfold _generate_early_warnings. cbn zeta. cbn [List.app].
    rewrite Hs, Hsmall by lia. reflexivity.
  - intros Hlen. rewrite WarningProofs.cluster_alerts. now apply Hsmall.
  - intros Hdate Hint. unfold _generate_early_warnings, sentiment_drop_check,
      intensity_cluster_check. rewrite Hdate, Hint, Bool.andb_false_r. reflexivity.
Qed.

End AlertProofs.

(** ** The colour scales *)

Module ColourProofs.
Import Py PyFacts DashboardGenerator Notions.



End ColourProofs.

(** ** The region of a location *)

Module RegionProofs.
Import Py PyFacts TextPreprocessor FeatureEngineer Notions.

Lemma any_keyword_false (keywords : list string) (t : string) :
  any_keyword keywords t = false <->
  forall keyword, List.In keyword keywords -> ~ occurs_in keyword t.
Proof.
  unfold any_keyword. induction keywords as [|k ks IH]; simpl.
  - split; [intros _ k [] | reflexivity].
  - rewrite orb_false_iff, IH. split.
    + intros [Hk Hks] keyword [<-|Hin].
      * intros Hocc. apply IntensityProofs.str_in_true in Hocc. congruence.
      * now apply Hks.
    + intros H. split.
      * destruct (str_in k t) eqn:E; [|reflexivity].
        exfalso. apply (H k); [now left | now apply IntensityProofs.str_in_true].
      * intros keyword Hin. apply H. now right.
Qed.

Lemma any_keyword_true (keywords : list string) (t : string) :
  any_keyword keywords t = true <->
  exists keyword, List.In keyword keywords /\ occurs_in keyword t.
Proof.
  unfold any_keyword. rewrite existsb_exists. split.
  - intros (k & Hk & E). exists k. split; [exact Hk | now apply IntensityProofs.str_in_true].
  - intros (k & Hk & E). exists k. split; [exact Hk | now apply IntensityProofs.str_in_true].
Qed.

Lemma first_region_range (table : list (string * list string)) (t : string) :
  List.In (first_region table t) (List.map fst table ++ ["Other"]).
Proof.
  induction table as [|[region keywords] table IH]; simpl; [now left|].
  destruct (any_keyword keywords t); [now left | now right].
Qed.

Lemma first_region_other (table : list (string * list string)) (t : string) :
  (forall region keywords, List.In (region, keywords) table -> region <> "Other") ->
  first_region table t = "Other" <->
  forall region keywords, List.In (region, keywords) table -> any_keyword keywords t = false.
Proof.
  induction table as [|[region keywords] table IH]; intros Hnames; simpl.
  - split; [intros _ r ks [] | reflexivity].
  - destruct (any_keyword keywords t) eqn:E.
    + split.
      * intros H. exfalso. apply (Hnames region keywords); [now left | exact H].
      * intros H. specialize (H region keywords (or_introl eq_refl)). congruence.
    + rewrite IH by (intros r ks Hin; apply (Hnames r ks); now right). split.
      * intros H r ks [Heq|Hin]; [inversion Heq; now subst | now apply (H r ks)].
      * intros H r ks Hin. apply (H r ks). now right.
Qed.

Lemma first_region_first (before after : list (string * list string))
  (region : string) (keywords : list string) (t : string) :
  any_keyword keywords t = true ->
  (forall r ks, List.In (r, ks) before -> any_keyword ks t = false) ->
  first_region (before ++ (region, keywords) :: after) t = region.
Proof.
  intros Hhit. induction before as [|[r ks] before IH]; intros Hmiss; simpl.
  - now rewrite Hhit.
  - rewrite (Hmiss r ks (or_introl eq_refl)). apply IH.
    intros r' ks' Hin. apply (Hmiss r' ks'). now right.
Qed.

Lemma lower_idempotent (s : string) : lower (lower s) = lower s.
Proof. apply StripProofs.map_chars_idempotent, StripProofs.lower_char_idempotent. Qed.

(** X21.  [_map_location_to_region] gives "Unknown" for a location
    that is not a string.  For a string it gives the first region of
    its table that has a keyword occurring in the lower-cased location,
    and "Other" exactly when no keyword of any region occurs in it; so
    the result is one of the six regions or "Other", and it does not
    depend on the case of the letters.  The coordinates it is passed
    are not used. *)
Theorem location_maps_to_first_matching_region {C : Type} (region_coords : C) :
  (forall location : py_value,
     (forall s, location <> PyStr s) ->
     _map_location_to_region location region_coords = "Unknown") /\
  (forall s : string,
     List.In (_map_location_to_region (PyStr s) region_coords)
       ["Nairobi"; "Mombasa"; "Kisumu"; "Nakuru"; "Eldoret"; "Meru"; "Other"]) /\
  (forall s : string,
     _map_location_to_region (PyStr s) region_coords = "Other" <->
     forall region keywords keyword,
       List.In (region, keywords) region_keywords -> List.In keyword keywords ->
       ~ occurs_in keyword (lower s)) /\
  (forall (s : string) before region keywords after keyword,
     region_keywords = before ++ (region, keywords) :: after ->
     List.In keyword keywords -> occurs_in keyword (lower s) ->
     (forall r ks k, List.In (r, ks) before -> List.In k ks -> ~ occurs_in k (lower s)) ->
     _map_location_to_region (PyStr s) region_coords = region) /\
  (forall s : string,
     _map_location_to_region (PyStr (lower s)) region_coords
     = _map_location_to_region (PyStr s) region_coords) /\
  (forall (D : Type) (other_coords : D) (location : py_value),
     _map_location_to_region location other_coords
     = _map_location_to_region location region_coords).
Proof.
  split; [|split; [|split; [|split; [|split]]]].
  - intros [s| |q] H; [now destruct (H s) | reflexivity | reflexivity].
  - intros s. apply (first_region_range region_keywords (lower s)).
  - intros s. unfold _map_location_to_region. rewrite first_region_other.
    + split.
      * intros H region keywords keyword Hr Hk.
        now apply (proj1 (any_keyword_false keywords (lower s)) (H region keywords Hr)).
      * intros H region keywords Hr. apply any_keyword_false.
        intros keyword Hk. now apply (H region keywords).
    + intros region keywords Hin. simpl in Hin.
      repeat (destruct Hin as [Hin|Hin]; [inversion Hin; discriminate|]). destruct Hin.
  - intros s before region keywords after keyword Htable Hk Hocc Hmiss.
    unfold _map_location_to_region. rewrite Htable. apply first_region_first.
    + apply any_keyword_true. now exists keyword.
    + intros r ks Hin. apply any_keyword_false. intros k Hk'. now apply (Hmiss r ks).
  - intros s. unfold _map_location_to_region. now rewrite lower_idempotent.
  - intros D other_coords location. reflexivity.
Qed.

(** *** One-hot columns *)

Lemma flags_sum {C : Type} (r : string) (region_coords : list (string * C)) :
  List.NoDup (List.map fst region_coords) ->
  sum_Z (List.map (fun item => if String.eqb r (fst item) then 1%Z else 0%Z) region_coords)
  = if existsb (String.eqb r) (List.map fst region_coords) then 1%Z else 0%Z.
Proof.
  induction region_coords as [|[k c] l IH]; intros Hnd; [reflexivity|].
  simpl in Hnd. inversion Hnd as [|? ? Hnot Hnd']; subst.
  cbn [List.map sum_Z fold_right fst existsb]. fold (sum_Z
    (List.map (fun item : string * C => if String.eqb r (fst item) then 1%Z else 0%Z) l)).
  rewrite (IH Hnd'). destruct (String.eqb r k) eqn:E; cbn [orb].
  - apply String.eqb_eq in E. subst k.
    destruct (existsb (String.eqb r) (List.map fst l)) eqn:E'; [|reflexivity].
    exfalso. apply existsb_exists in E' as (k & Hk & Hrk).
    apply String.eqb_eq in Hrk. now subst k.
  - destruct (existsb (String.eqb r) (List.map fst l)); reflexivity.
Qed.

Lemma flags_of_row_exact {C : Type} (locations : list py_value)
  (region_coords : list (string * C)) (i : nat) :
  (i < List.length locations)%nat ->
  List.map (fun item =>
              List.nth i
                (List.map (fun r => if String.eqb r (fst item) then 1%Z else 0%Z)
                   (List.map (fun x => _map_location_to_region x region_coords) locations))
                0%Z)
           region_coords
  = List.map (fun item =>
                if String.eqb (_map_location_to_region (List.nth i locations PyNone) region_coords)
                              (fst item)
                then 1%Z else 0%Z)
             region_coords.
Proof.
  intros Hi. apply List.map_ext. intros item. rewrite List.map_map.
  rewrite (List.nth_indep _ 0%Z
             (if String.eqb (_map_location_to_region PyNone region_coords) (fst item)
              then 1%Z else 0%Z))
    by now rewrite List.length_map.
  apply (List.map_nth
           (fun x => if String.eqb (_map_location_to_region x region_coords) (fst item)
                     then 1%Z else 0%Z)).
Qed.

(** X22.  [create_geo_features] adds nothing to a table without a
    user_location column.  Otherwise it adds the region of every
    record and, for each key of [region_coords], a column named
    region_ and the key that holds 0 or 1 for every record.  The flags
    of a record add up to 1 when its region is one of the keys, and
    all of them are 0 otherwise. *)
Theorem geo_features_are_one_hot {C : Type}
  (locations : list py_value) (region_coords : list (string * C)) :
  List.NoDup (List.map fst region_coords) ->
  create_geo_features (C := C) None region_coords = None /\
  exists g : geo_columns,
    create_geo_features (Some locations) region_coords = Some g /\
    List.length (region_column g) = List.length locations /\
    List.map fst (one_hot g)
      = List.map (fun item => ("region_" ++ fst item)%string) region_coords /\
    Forall (fun column => List.length (snd column) = List.length locations) (one_hot g) /\
    forall i : nat,
      (i < List.length locations)%nat ->
      let region := List.nth i (region_column g) "" in
      region = _map_location_to_region (List.nth i locations PyNone) region_coords /\
      Forall (fun flag => flag = 0%Z \/ flag = 1%Z) (flags_of_row i g) /\
      (List.In region (List.map fst region_coords) -> sum_Z (flags_of_row i g) = 1%Z) /\
      (~ List.In region (List.map fst region_coords) ->
       Forall (fun flag => flag = 0%Z) (flags_of_row i g)).
Proof.
  intros Hnd. split; [reflexivity|]. eexists. split; [reflexivity|].
  cbn [region_column one_hot]. split; [apply List.length_map|].
  split; [now rewrite List.map_map|]. split.
  - apply List.Forall_forall. intros column Hin.
    apply List.in_map_iff in Hin as (item & <- & _). cbn [snd].
    now rewrite !List.length_map.
  - intros i Hi. cbv zeta. unfold flags_of_row. cbn [one_hot].
    rewrite List.map_map. cbn [snd]. rewrite (flags_of_row_exact locations region_coords i Hi).
    assert (Hregion :
      List.nth i (List.map (fun x => _map_location_to_region x region_coords) locations) ""
      = _map_location_to_region (List.nth i locations PyNone) region_coords).
    { rewrite (List.nth_indep _ "" (_map_location_to_region PyNone region_coords))
        by now rewrite List.length_map.
      apply (List.map_nth (fun x => _map_location_to_region x region_coords)). }
    rewrite Hregion.
    set (r := _map_location_to_region (List.nth i locations PyNone) region_coords).
    split; [reflexivity|]. split; [|split].
    + apply List.Forall_forall. intros flag Hin.
      apply List.in_map_iff in Hin as (item & <- & _).
      destruct (String.eqb r (fst item)); [now right | now left].
    + intros Hin. rewrite (flags_sum r region_coords Hnd).
      destruct (existsb (String.eqb r) (List.map fst region_coords)) eqn:E; [reflexivity|].
      exfalso. assert (E' : existsb (String.eqb r) (List.map fst region_coords) = true)
        by (apply existsb_exists; exists r; split; [exact Hin | apply String.eqb_refl]).
      congruence.
    + intros Hnot. apply List.Forall_forall. intros flag Hin.
      apply List.in_map_iff in Hin as (item & <- & Hitem).
      destruct (String.eqb r (fst item)) eqn:E; [|reflexivity].
      exfalso. apply Hnot. apply String.eqb_eq in E. rewrite E. now apply List.in_map.
Qed.

(** Four locations and three regions: the first record is flagged for
    Nairobi, the third for Kisumu, and the records of the regions
    "Unknown" and "Other" for none. *)
Lemma geo_features_are_one_hot_witness :
  create_geo_features (Some sample_locations) sample_coords
    = Some {| region_column := ["Nairobi"; "Unknown"; "Kisumu"; "Other"];
              one_hot := [("region_Nairobi", [1; 0; 0; 0]%Z);
                          ("region_Mombasa", [0; 0; 0; 0]%Z);
                          ("region_Kisumu", [0; 0; 1; 0]%Z)] |} /\
  exists g : geo_columns,
    create_geo_features (Some sample_locations) sample_coords = Some g /\
    List.length (region_column g) = List.length sample_locations.
Proof.
  split; [vm_compute; reflexivity|].
  destruct (geo_features_are_one_hot sample_locations sample_coords) as (_ & g & Hg & Hlen & _).
  - vm_compute. repeat constructor; simpl; intuition discriminate.
  - exists g. now split.
Defined.

End RegionProofs.
